(** * loveinthecity: login, logout gate and messages page

    A shallow embedding of the client-side logic of the application:
    - [LoginPage.handleLogin]            (LoginPage component),
    - [MessagesPage.loadConversations], [MessagesPage.handleSendMessage],
      [MessagesPage.handleDeleteConversation]   (pages/MessagesPage.tsx),
    - [App.effect1], [App.effect2], [App.handleLogout]   (the AppContent
      code quoted in LOGOUT_CODE_LOGIC.md),
    over an explicit browser state (localStorage, the storage manager's
    cache, the clock and the random source).

    Handlers are written in a small state-and-exception monad, so that a
    [try { ... } catch] block, an early [return] and the order of the
    writes read as they do in the source. *)

From Stdlib Require Import ZArith String Ascii List Bool Lia.
From stdpp Require Import base option list gmap strings pretty.

Local Open Scope Z_scope.
Local Open Scope string_scope.

(** ** JavaScript strings *)

(** Strings are sequences of UTF-8 bytes. [trim] removes, at both ends, the
    characters of ECMAScript's WhiteSpace and LineTerminator productions:
    U+0009..U+000D, U+0020, U+00A0, U+1680, U+2000..U+200A, U+2028, U+2029,
    U+202F, U+205F, U+3000 and U+FEFF, recognised by their encodings. *)
Module Js.

Definition code (c : ascii) : N := N_of_ascii c.

Definition isAsciiWhiteSpace (c : ascii) : bool :=
  ((9 <=? code c) && (code c <=? 13) || (code c =? 32))%N.

(** U+00A0 is the only two-byte white space: C2 A0. *)
Definition isWhiteSpace2 (a b : ascii) : bool :=
  ((code a =? 194) && (code b =? 160))%N.

(** The three-byte white spaces. *)
Definition isWhiteSpace3 (a b c : ascii) : bool :=
  (   (code a =? 225) && (code b =? 154) && (code c =? 128)   (* U+1680 *)
   || (code a =? 226) && (code b =? 128) &&
        ((128 <=? code c) && (code c <=? 138)                (* U+2000..U+200A *)
         || (code c =? 168) || (code c =? 169)                (* U+2028, U+2029 *)
         || (code c =? 175))                                  (* U+202F *)
   || (code a =? 226) && (code b =? 129) && (code c =? 159)   (* U+205F *)
   || (code a =? 227) && (code b =? 128) && (code c =? 128)   (* U+3000 *)
   || (code a =? 239) && (code b =? 187) && (code c =? 191)   (* U+FEFF *)
  )%N.

(** Strip leading white space. With [backwards] the bytes of [s] are those
    of a reversed string, so that a multi-byte character is met last byte
    first. *)
Fixpoint stripLeading (backwards : bool) (s : string) : string :=
  match s with
  | EmptyString => EmptyString
  | String a r1 =>
      if isAsciiWhiteSpace a then stripLeading backwards r1
      else
        match r1 with
        | EmptyString => s
        | String b r2 =>
            if (if backwards then isWhiteSpace2 b a else isWhiteSpace2 a b)
            then stripLeading backwards r2
            else
              match r2 with
              | EmptyString => s
              | String c r3 =>
                  if (if backwards then isWhiteSpace3 c b a
                      else isWhiteSpace3 a b c)
                  then stripLeading backwards r3
                  else s
              end
        end
  end.

Definition trimStart (s : string) : string := stripLeading false s.
Definition trimEnd (s : string) : string :=
  String.rev (stripLeading true (String.rev s)).
Definition trim (s : string) : string := trimEnd (trimStart s).

(** ToBoolean on a string: only the empty string is falsy. *)
Definition truthy (s : string) : bool :=
  match s with EmptyString => false | String _ _ => true end.

(** [s.startsWith(p)] *)
Definition startsWith (s p : string) : bool := String.prefix p s.

(** The text that [new Date(instant).toISOString()] gives, kept as the
    instant it renders. *)
Inductive DateString : Type := toISOString (instant : Z).

End Js.

(** ** A state-and-exception monad

    [M S A] is a computation over a state [S] that returns an [A] or throws.
    The state reached when an exception is thrown is kept: the writes done
    before a [throw] stay done, as in JavaScript. *)

Inductive Result (A : Type) : Type :=
| Ok (a : A)
| Throw (err : string).
Arguments Ok {A} a.
Arguments Throw {A} err.

Definition M (S A : Type) : Type := S -> Result A * S.

Definition ret {S A} (a : A) : M S A := fun s => (Ok a, s).

Definition bind {S A B} (m : M S A) (k : A -> M S B) : M S B :=
  fun s =>
    match m s with
    | (Ok a, s') => k a s'
    | (Throw e, s') => (Throw e, s')
    end.

Definition throw {S A} (e : string) : M S A := fun s => (Throw e, s).

Definition tryCatch {S A} (body : M S A) (handler : string -> M S A) : M S A :=
  fun s =>
    match body s with
    | (Ok a, s') => (Ok a, s')
    | (Throw e, s') => handler e s'
    end.

Definition modify {S} (f : S -> S) : M S unit := fun s => (Ok tt, f s).

Definition execM {S A} (m : M S A) (s : S) : S := snd (m s).
Definition resultM {S A} (m : M S A) (s : S) : Result A := fst (m s).

Declare Scope js_scope.
Delimit Scope js_scope with js.
Notation "'let*' x ':=' c1 'in' c2" := (bind c1 (fun x => c2))
  (at level 10, x name, c1 at level 100, c2 at level 200) : js_scope.
Notation "c1 ';;' c2" := (bind c1 (fun _ => c2))
  (at level 100, c2 at level 200, right associativity) : js_scope.
Local Open Scope js_scope.

(** [list.map(f)] for a callback with effects, left to right. *)
Fixpoint mapM {S A B} (f : A -> M S B) (l : list A) : M S (list B) :=
  match l with
  | [] => ret []
  | x :: l' => let* y := f x in let* ys := mapM f l' in ret (y :: ys)
  end.

(** [list.map((x, index) => ...)], the index starting at [i]. *)
Fixpoint mapMi {S A B} (f : A -> Z -> M S B) (i : Z) (l : list A) : M S (list B) :=
  match l with
  | [] => ret []
  | x :: l' => let* y := f x i in let* ys := mapMi f (i + 1) l' in ret (y :: ys)
  end.

(** ** Data model *)

Module UserSession.
Record t : Type := mk {
  id : string;
  phone : string;
  isAuthenticated : bool;
  loginTime : Js.DateString;
  lastActive : Z
}.
End UserSession.

Module UserProfile.
Record t : Type := mk {
  id : string;
  name : string;
  age : Z;
  avatar : string;
  isVip : bool;
  following : Z;
  fans : Z;
  wallet : Z
}.
End UserProfile.

Module Message.
Record t : Type := mk {
  id : string;
  conversationId : string;
  senderId : string;
  text : string;
  timestamp : Z;
  read : bool
}.
End Message.

Module Conversation.
Record t : Type := mk {
  id : string;
  userId : string;
  userName : string;
  userImage : option string;   (* [user.images[0]] is undefined on an empty array *)
  lastMessage : string;
  lastMessageTime : Z;
  unreadCount : Z;
  messages : list Message.t
}.
End Conversation.

(** What the application keeps in the storage manager. *)
Inductive Value : Type :=
| VSession (s : UserSession.t)
| VProfile (p : UserProfile.t)
| VConversations (l : list Conversation.t).

(** An item as the storage manager writes it: the data and its time to live. *)
Record StorageItem : Type := mkItem {
  data : Value;
  ttl : option Z
}.

(** A localStorage entry is an item of the storage manager or a plain string
    (the mock token is written without the manager). *)
Inductive Entry : Type :=
| Raw (s : string)
| Item (it : StorageItem).

(** The browser side of the state. [clock] and [random] are the readings
    that [Date.now()] and [Math.random()] will return, in order. *)
Record Sys : Type := mkSys {
  localStorage : gmap string Entry;
  cache : gmap string StorageItem;
  clock : nat -> Z;
  ticks : nat;
  random : nat -> string;
  draws : nat
}.

Definition withLocalStorage (f : gmap string Entry -> gmap string Entry) (y : Sys) : Sys :=
  mkSys (f (localStorage y)) (cache y) (clock y) (ticks y) (random y) (draws y).
Definition withCache (f : gmap string StorageItem -> gmap string StorageItem) (y : Sys) : Sys :=
  mkSys (localStorage y) (f (cache y)) (clock y) (ticks y) (random y) (draws y).

(** [Date.now()] (and [new Date()]): the next reading of the clock. *)
Definition dateNow : M Sys Z :=
  fun y => (Ok (clock y (ticks y)),
            mkSys (localStorage y) (cache y) (clock y) (S (ticks y)) (random y) (draws y)).

(** [Math.random().toString(36).substr(2, 9)]: the next draw, as text. *)
Definition randomId : M Sys string :=
  fun y => (Ok (random y (draws y)),
            mkSys (localStorage y) (cache y) (clock y) (ticks y) (random y) (S (draws y))).

(** [y'] is [y] but for the position of the clock. *)
Definition sameStorage (y y' : Sys) : Prop :=
  localStorage y' = localStorage y /\ cache y' = cache y /\ clock y' = clock y
  /\ random y' = random y /\ draws y' = draws y.

(** [localStorage.removeItem(key)] *)
Definition removeItem (key : string) : M Sys unit :=
  modify (withLocalStorage (delete key)).

(** Calls made to the outside of a component. *)
Inductive Call : Type :=
| CallOnLogin
| CallNavigate (to : string) (replace : bool).

(** A component in its environment: the browser, the component's React state
    and the calls it has made so far. *)
Record World (C : Type) : Type := mkWorld {
  sys : Sys;
  ui : C;
  calls : list Call
}.
Arguments mkWorld {C} sys ui calls.
Arguments sys {C} w.
Arguments ui {C} w.
Arguments calls {C} w.

Definition liftSys {C A} (m : M Sys A) : M (World C) A :=
  fun w => let (r, y) := m (sys w) in (r, mkWorld y (ui w) (calls w)).

Definition getUi {C} : M (World C) C := fun w => (Ok (ui w), w).

Definition setUi {C} (f : C -> C) : M (World C) unit :=
  modify (fun w => mkWorld (sys w) (f (ui w)) (calls w)).

Definition call {C} (c : Call) : M (World C) unit :=
  modify (fun w => mkWorld (sys w) (ui w) (calls w ++ [c])).

(** ** The storage manager *)

Module Storage.
(** The methods of [StorageManager] that the pages use. *)
Record API : Type := mkAPI {
  get : string -> M Sys (option Value);
  set : string -> Value -> option Z -> M Sys unit;
  remove : string -> M Sys unit;
  clearUserProfile : M Sys unit;
  clear : M Sys unit
}.
End Storage.

Module StorageManager.

Definition PREFIX : string := "loveinthecity_".

(** Modelled from the spec: utils/localStorage.ts (the StorageManager
    class) is not among the sources. The spec describes it as a thin
    wrapper over local storage with an in-memory mirror and key prefixing,
    whose access failures are swallowed; the logout notes list what
    [remove] and [clear] do. [set] writes the item under the prefixed key
    and into the mirror. *)
Definition set (key : string) (v : Value) (t : option Z) : M Sys unit :=
  modify (fun y =>
    withCache (insert key (mkItem v t))
      (withLocalStorage (insert (PREFIX +:+ key) (Item (mkItem v t))) y)).

(** Modelled from the spec: the missing [StorageManager.get]. It answers
    from the mirror, else from local storage under the prefixed key; an
    entry that is not an item of the manager is a swallowed failure. The
    spec says nothing of what happens when a time to live has run out, and
    no expiry is modelled. *)
Definition get (key : string) : M Sys (option Value) :=
  fun y =>
    match cache y !! key with
    | Some it => (Ok (Some (data it)), y)
    | None =>
        match localStorage y !! (PREFIX +:+ key) with
        | Some (Item it) => (Ok (Some (data it)), y)
        | _ => (Ok None, y)
        end
    end.

(** Modelled from the spec: the missing [StorageManager.remove], which
    removes the prefixed key from local storage and the key from the
    mirror (LOGOUT_CODE_LOGIC.md, handleLogout, step 2). *)
Definition remove (key : string) : M Sys unit :=
  modify (fun y => withCache (delete key) (withLocalStorage (delete (PREFIX +:+ key)) y)).

(** Modelled from the spec: the missing [StorageManager.clearUserProfile],
    which calls [remove('userProfile')]. *)
Definition clearUserProfile : M Sys unit := remove "userProfile".

(** Modelled from the spec: the missing [StorageManager.clear], which goes
    through all local storage keys, removes the ones that start with the
    prefix, and empties the mirror. *)
Definition clear : M Sys unit :=
  modify (fun y =>
    withCache (fun _ => ∅)
      (withLocalStorage (fun ls =>
         foldr (fun k m => if Js.startsWith k PREFIX then delete k m else m)
               ls (map_to_list ls).*1) y)).

Definition getInstance : Storage.API :=
  Storage.mkAPI get set remove clearUserProfile clear.

End StorageManager.

(** ** The login page *)

Module LoginPage.

Record State : Type := mkState {
  phone : string;
  password : string;
  error : string;
  loading : bool
}.

Definition setError (msg : string) : M (World State) unit :=
  setUi (fun s => mkState (phone s) (password s) msg (loading s)).
Definition setLoading (b : bool) : M (World State) unit :=
  setUi (fun s => mkState (phone s) (password s) (error s) b).

Definition MSG_PHONE : string := "📱 Please enter your phone number".
Definition MSG_PASSWORD : string := "🔐 Please enter your password".
Definition MSG_FAILED : string := "❌ Login failed. Please try again.".

Definition sessionTTL : Z := 24 * 60 * 60 * 1000.

Section handlers.
(** [storage] is [StorageManager.getInstance()]; [onLogin] is the
    callback received from the parent: it acts on the browser state and
    may throw. *)
Context (storage : Storage.API) (onLogin : M Sys unit).

(** The block under [try]. [phone] and [password] are the values of the
    render in which the form was submitted. Console output and
    [e.preventDefault()] leave the modelled state alone and are left
    out. *)
Definition handleLogin_try (phone password : string) : M (World State) unit :=
  if negb (Js.truthy (Js.trim phone)) then
    setError MSG_PHONE;; setLoading false;; ret tt
  else if negb (Js.truthy (Js.trim password)) then
    setError MSG_PASSWORD;; setLoading false;; ret tt
  else
    let* r := liftSys randomId in
    let* t1 := liftSys dateNow in
    let* t2 := liftSys dateNow in
    let userSession :=
      UserSession.mk ("user_" +:+ r) phone true (Js.toISOString t1) t2 in
    liftSys (Storage.set storage "userSession" (VSession userSession)
               (Some sessionTTL));;
    let* userProfile := liftSys (Storage.get storage "userProfile") in
    (match userProfile with
     | Some _ => ret tt
     | None =>
         liftSys (Storage.set storage "userProfile"
                    (VProfile (UserProfile.mk
                       (UserSession.id userSession)
                       "User"
                       25
                       ("https://api.dicebear.com/7.x/avataaars/svg?seed=" +:+ phone)
                       false 0 0 0))
                    None)
     end);;
    setLoading false;;
    call CallOnLogin;;
    liftSys onLogin.

(** The block under [catch]. *)
Definition handleLogin_catch (err : string) : M (World State) unit :=
  setError MSG_FAILED;; setLoading false.

Definition handleLogin : M (World State) unit :=
  let* st := getUi in
  setError "";;
  setLoading true;;
  tryCatch (handleLogin_try (phone st) (password st)) handleLogin_catch.

End handlers.

End LoginPage.

(** ** The messages page *)

Module MessagesPage.

Record State : Type := mkState {
  conversations : list Conversation.t;
  selectedConversation : option Conversation.t;
  messageInput : string
}.

(** [useState] initial values. *)
Definition initial : State := mkState [] None "".

Definition setConversations (l : list Conversation.t) : M (World State) unit :=
  setUi (fun s => mkState l (selectedConversation s) (messageInput s)).
Definition setSelectedConversation (c : option Conversation.t) : M (World State) unit :=
  setUi (fun s => mkState (conversations s) c (messageInput s)).
Definition setMessageInput (x : string) : M (World State) unit :=
  setUi (fun s => mkState (conversations s) (selectedConversation s) x).

(** The fields of an entry of [MOCK_USERS] that this page reads. *)
Record MockUser : Type := mkMockUser {
  id : string;
  name : string;
  images : list string
}.

(** [{ ...conv, messages: [...conv.messages, m], lastMessage: x, lastMessageTime: t }] *)
Definition withNewMessage (conv : Conversation.t) (m : Message.t) (x : string) (t : Z)
  : Conversation.t :=
  Conversation.mk (Conversation.id conv) (Conversation.userId conv)
    (Conversation.userName conv) (Conversation.userImage conv)
    x t (Conversation.unreadCount conv) (Conversation.messages conv ++ [m]).

Section handlers.
(** [MOCK_USERS] comes from the constants module, which is not among the
    sources: the handlers take it as a parameter. *)
Context (storage : Storage.API) (MOCK_USERS : list MockUser).

(** The callback of [.map((user, index) => ...)] in [loadConversations]. *)
Definition defaultConversation (user : MockUser) (index : Z) : M Sys Conversation.t :=
  let* t0 := dateNow in
  let* t1 := dateNow in
  let* t2 := dateNow in
  let* t3 := dateNow in
  ret (Conversation.mk
         ("conv_" +:+ id user)
         (id user)
         (name user)
         (head (images user))
         "Hi! How are you?"
         (t0 - index * 60000)
         (if Z.eqb (index mod 2) 0 then index else 0)
         [ Message.mk "msg_1" ("conv_" +:+ id user) (id user)
             "Hi! How are you?" (t1 - 300000) true;
           Message.mk "msg_2" ("conv_" +:+ id user) "me"
             "I'm doing great! How about you?" (t2 - 240000) true;
           Message.mk "msg_3" ("conv_" +:+ id user) (id user)
             "Great! Would you like to meet up?" (t3 - 60000) false ]).

Definition defaultConversations : M Sys (list Conversation.t) :=
  mapMi defaultConversation 0
    (take 5 (filter (fun u => id u <> "support") MOCK_USERS)).

(** The mount effect. [savedConversations && savedConversations.length > 0]
    holds of a stored non-empty array only. *)
Definition loadConversations : M (World State) unit :=
  let* savedConversations := liftSys (Storage.get storage "conversations") in
  match savedConversations with
  | Some (VConversations (c :: l)) =>
      setConversations (c :: l);;
      setSelectedConversation (Some c)
  | _ =>
      let* defaults := liftSys defaultConversations in
      liftSys (Storage.set storage "conversations" (VConversations defaults) None);;
      setConversations defaults;;
      setSelectedConversation (head defaults)
  end.

Definition handleSendMessage : M (World State) unit :=
  let* st := getUi in
  match Js.truthy (Js.trim (messageInput st)), selectedConversation st with
  | true, Some selected =>
      let* tId := liftSys dateNow in
      let* tStamp := liftSys dateNow in
      let newMessage :=
        Message.mk ("msg_" +:+ pretty tId) (Conversation.id selected) "me"
          (messageInput st) tStamp true in
      let* updatedConversations :=
        liftSys (mapM (fun conv =>
            if String.eqb (Conversation.id conv) (Conversation.id selected)
            then let* t := dateNow in
                 ret (withNewMessage conv newMessage (messageInput st) t)
            else ret conv)
          (conversations st)) in
      setConversations updatedConversations;;
      liftSys (Storage.set storage "conversations"
                 (VConversations updatedConversations) None);;
      let* tSel := liftSys dateNow in
      setSelectedConversation
        (Some (withNewMessage selected newMessage (messageInput st) tSel));;
      setMessageInput ""
  | _, _ => ret tt
  end.

Definition handleDeleteConversation (conversationId : string) : M (World State) unit :=
  let* st := getUi in
  let filtered :=
    filter (fun c => Conversation.id c <> conversationId) (conversations st) in
  setConversations filtered;;
  liftSys (Storage.set storage "conversations" (VConversations filtered) None);;
  match selectedConversation st with
  | Some selected =>
      if String.eqb (Conversation.id selected) conversationId
      then setSelectedConversation (head filtered)
      else ret tt
  | None => ret tt
  end.

Inductive Event : Type :=
| Send                             (* the send button, or Enter in the input *)
| Delete (conversationId : string) (* the delete button *)
| Select (i : nat)                 (* a click on the i-th conversation *)
| Input (x : string).              (* typing in the message input *)

Definition handle (ev : Event) : M (World State) unit :=
  match ev with
  | Send => handleSendMessage
  | Delete conversationId => handleDeleteConversation conversationId
  | Select i =>
      let* st := getUi in
      match conversations st !! i with
      | Some conv => setSelectedConversation (Some conv)
      | None => ret tt
      end
  | Input x => setMessageInput x
  end.

(** The storage manager has no conversation to give back. *)
Definition holdsNoConversations (y : Sys) : Prop :=
  forall c l, resultM (Storage.get storage "conversations") y
              <> Ok (Some (VConversations (c :: l))).

(** The states of the page: it mounts on a storage without conversations,
    then handles events. What a handler wrote before throwing stays
    written. *)
Inductive reachable : World State -> Prop :=
| reach_load y :
    holdsNoConversations y ->
    reachable (execM loadConversations (mkWorld y initial []))
| reach_event w ev :
    reachable w -> reachable (execM (handle ev) w).

End handlers.

(** Every message of a conversation names that conversation. *)
Definition consistent (c : Conversation.t) : Prop :=
  Forall (fun m => Message.conversationId m = Conversation.id c)
         (Conversation.messages c).

Definition allConsistent (l : list Conversation.t) : Prop := Forall consistent l.

(** [c'] is what becomes of the conversation [c] of the list when the
    message [m], of text [x], is sent to the conversation [selectedId]: [c]
    with [m] as one more message, [x] as last message and a reading of the
    clock [ck] as last message time when [c] has that identifier, [c]
    itself otherwise. *)
Definition sent (ck : nat -> Z) (selectedId : string) (m : Message.t) (x : string)
    (c c' : Conversation.t) : Prop :=
  if decide (Conversation.id c = selectedId)
  then exists k,
         c' = Conversation.mk (Conversation.id c) (Conversation.userId c)
                (Conversation.userName c) (Conversation.userImage c)
                x (ck k) (Conversation.unreadCount c) (Conversation.messages c ++ [m])
  else c' = c.

End MessagesPage.

(** ** The root component: session check, redirect gate and logout *)

Module App.

(** The React state of App and AppContent, with what React keeps for the
    two effects of AppContent. *)
Record State : Type := mkState {
  isAuthenticated : bool;     (* useState(false), in App *)
  mounted : bool;             (* useState(false), in AppContent *)
  navigate : nat;             (* which function useNavigate() returned *)
  effect1Ran : bool;          (* Effect #1 depends on a setter only: it runs once *)
  effect2Deps : option (bool * nat * bool)
                              (* the dependencies at the last run of Effect #2 *)
}.

Definition initial (n : nat) : State := mkState false false n false None.

Definition setIsAuthenticated (b : bool) : M (World State) unit :=
  setUi (fun s => mkState b (mounted s) (navigate s) (effect1Ran s) (effect2Deps s)).
Definition setMounted (b : bool) : M (World State) unit :=
  setUi (fun s => mkState (isAuthenticated s) b (navigate s) (effect1Ran s) (effect2Deps s)).
Definition setNavigate (n : nat) : M (World State) unit :=
  setUi (fun s => mkState (isAuthenticated s) (mounted s) n (effect1Ran s) (effect2Deps s)).
Definition markEffect1 : M (World State) unit :=
  setUi (fun s => mkState (isAuthenticated s) (mounted s) (navigate s) true (effect2Deps s)).
Definition recordEffect2 (d : bool * nat * bool) : M (World State) unit :=
  setUi (fun s => mkState (isAuthenticated s) (mounted s) (navigate s) (effect1Ran s) (Some d)).

(** [userSession && userSession.isAuthenticated] *)
Definition validSession (v : option Value) : bool :=
  match v with
  | Some (VSession s) => UserSession.isAuthenticated s
  | _ => false
  end.

(** The dependency array of Effect #2: [isAuthenticated, navigate, mounted]. *)
Definition deps (s : State) : bool * nat * bool :=
  (isAuthenticated s, navigate s, mounted s).

(** Two renders show the same state. *)
Definition sameState (a b : State) : bool :=
  Bool.eqb (isAuthenticated a) (isAuthenticated b)
  && Bool.eqb (mounted a) (mounted b)
  && Nat.eqb (navigate a) (navigate b).

Section component.
Context (storage : Storage.API).

(** Effect #1: the session check on mount, as LOGOUT_CODE_LOGIC.md gives
    it. (DEBUG_SUMMARY.md shows it abridged, without the [try] and with the
    test [if (userSession)].) *)
Definition effect1 : M (World State) unit :=
  tryCatch
    (let* userSession := liftSys (Storage.get storage "userSession") in
     (if validSession userSession then setIsAuthenticated true else ret tt);;
     setMounted true)
    (fun _ => setMounted true).

(** Effect #2: the redirect gate. [snap] is the state of the render
    that the effect closes over. *)
Definition effect2 (snap : State) : M (World State) unit :=
  if mounted snap && negb (isAuthenticated snap)
  then call (CallNavigate "/login" true)
  else ret tt.

(** The redirect to the login screen, as Effect #2 issues it. *)
Definition toLogin : Call := CallNavigate "/login" true.

Definition handleLogout : M (World State) unit :=
  liftSys (removeItem "funloves_token");;
  liftSys (Storage.remove storage "userSession");;
  liftSys (Storage.clearUserProfile storage);;
  liftSys (Storage.clear storage);;
  setIsAuthenticated false.

(** Modelled from the spec: App.handleLogin, the [onLogin] given to the
    login page, is not among the sources. The notes describe it as
    writes to storage followed by [setIsAuthenticated(true)]; the writes
    are the parameter [writes]. *)
Definition handleLogin (writes : M Sys unit) : M (World State) unit :=
  liftSys writes;;
  setIsAuthenticated true.

(** One render followed by its effects, as React runs them: in the order
    of declaration, each effect only if it never ran or one of its
    dependencies changed, and all of them reading the state of that
    render. *)
Definition commit : M (World State) unit :=
  let* snap := getUi in
  (if effect1Ran snap then ret tt else markEffect1;; effect1);;
  (if decide (effect2Deps snap = Some (deps snap)) then ret tt
   else recordEffect2 (deps snap);; effect2 snap).

(** React renders again as long as the effects changed the state. *)
Fixpoint renderLoop (fuel : nat) : M (World State) unit :=
  match fuel with
  | O => ret tt
  | S n =>
      let* before := getUi in
      commit;;
      let* after := getUi in
      if sameState before after then ret tt else renderLoop n
  end.

Inductive Event : Type :=
| Login (writes : M Sys unit)   (* the login page calls onLogin *)
| Logout                        (* the Mine page calls onLogout *)
| NewNavigate (n : nat).        (* the router hands out a new navigate function *)

Definition handle (ev : Event) : M (World State) unit :=
  match ev with
  | Login writes => handleLogin writes
  | Logout => handleLogout
  | NewNavigate n => setNavigate n
  end.

(** An event is handled to its end, an exception that escapes the
    handler is dropped, and the component is rendered again. *)
Definition dispatch (fuel : nat) (ev : Event) : M (World State) unit :=
  tryCatch (handle ev) (fun _ => ret tt);;
  renderLoop fuel.

(** The page is loaded with browser state [y]: first render and effects. *)
Definition mount (fuel : nat) (y : Sys) (n : nat) : World State :=
  execM (renderLoop fuel) (mkWorld y (initial n) []).

(** Worlds reached after the page is loaded. *)
Inductive reachable (fuel : nat) : World State -> Prop :=
| reach_mount y n : reachable fuel (mount fuel y n)
| reach_event w ev : reachable fuel w -> reachable fuel (execM (dispatch fuel ev) w).

End component.

(** The effects have caught up with the state of a mounted component. *)
Definition settled (w : World State) : Prop :=
  effect1Ran (ui w) = true
  /\ mounted (ui w) = true
  /\ effect2Deps (ui w) = Some (deps (ui w)).

(** A page reload keeps local storage; everything in memory starts anew. *)
Definition reload (y : Sys) : Sys :=
  mkSys (localStorage y) ∅ (clock y) (ticks y) (random y) (draws y).

End App.


(** ** Sample runs *)

Module Demo.

Definition storage : Storage.API := StorageManager.getInstance.

(** An empty browser: the clock starts at some instant and advances by a
    millisecond at each reading. *)
Definition sys0 : Sys :=
  mkSys ∅ ∅ (fun n => 1700000000000 + Z.of_nat n) 0 (fun _ => "k3j9x0q1z") 0.

Definition loginForm : World LoginPage.State :=
  mkWorld sys0 (LoginPage.mkState "1234567890" "testpass123" "" false) [].

Definition blankForm : World LoginPage.State :=
  mkWorld sys0 (LoginPage.mkState "   " "testpass123" "" false) [].

(** The parent's handler writes the mock token. *)
Definition onLogin : M Sys unit :=
  modify (withLocalStorage (insert "funloves_token" (Raw "mock_jwt_token"))).

Definition failingOnLogin : M Sys unit := throw "onLogin failed".

(** The browser after a login. *)
Definition sysLoggedIn : Sys :=
  sys (execM (LoginPage.handleLogin storage onLogin) loginForm).

Definition MOCK_USERS : list MessagesPage.MockUser :=
  [ MessagesPage.mkMockUser "u1" "Ann" ["ann.png"];
    MessagesPage.mkMockUser "support" "Support" [];
    MessagesPage.mkMockUser "u2" "Bea" [] ].

Definition messagesLoaded : World MessagesPage.State :=
  execM (MessagesPage.loadConversations storage MOCK_USERS)
    (mkWorld sysLoggedIn MessagesPage.initial []).

Definition messagesTyped : World MessagesPage.State :=
  execM (MessagesPage.handle storage (MessagesPage.Input "See you at eight"))
    messagesLoaded.

Definition messagesSent : World MessagesPage.State :=
  execM (MessagesPage.handle storage MessagesPage.Send) messagesTyped.

(** The root component after a reload of the page of a logged-in user. *)
Definition appLoggedIn : World App.State :=
  App.mount storage 2 (App.reload sysLoggedIn) 0.

End Demo.

(** ** The rest of the messages page: unread badge, search, contact copy *)

Module MessagesView.

(** [conversations.reduce((sum, conv) => sum + conv.unreadCount, 0)] *)
Definition totalUnread (l : list Conversation.t) : Z :=
  foldl (fun sum conv => sum + Conversation.unreadCount conv) 0 l.

(** [s.includes(t)]: [t] starts at some position of [s]. *)
Fixpoint includes (s t : string) : bool :=
  String.prefix t s
  || match s with
     | EmptyString => false
     | String _ s' => includes s' t
     end.

Section search.
(** [String.prototype.toLowerCase] follows the Unicode case mappings; it is
    taken as a parameter. *)
Context (toLowerCase : string -> string).

Definition filteredConversations (searchTerm : string) (conversations : list Conversation.t)
  : list Conversation.t :=
  filter (fun conv =>
            includes (toLowerCase (Conversation.userName conv)) (toLowerCase searchTerm)
            = true)
         conversations.

End search.

(** What [copyContactInfo] reads and writes: the selection, the [copied]
    flag, the texts handed to [navigator.clipboard.writeText] so far, and
    the number of callbacks registered with [setTimeout] that have not run
    yet. All of them are registered with the same delay, so they run in the
    order of their registration, and all of them do the same thing. *)
Record Clip : Type := mkClip {
  selection : option Conversation.t;
  copied : bool;
  clipboard : list string;
  timers : nat
}.

Definition getClip : M Clip Clip := fun w => (Ok w, w).
Definition writeText (x : string) : M Clip unit :=
  modify (fun w => mkClip (selection w) (copied w) (clipboard w ++ [x]) (timers w)).
Definition setCopied (b : bool) : M Clip unit :=
  modify (fun w => mkClip (selection w) b (clipboard w) (timers w)).
Definition setTimeout : M Clip unit :=
  modify (fun w => mkClip (selection w) (copied w) (clipboard w) (S (timers w))).

Definition contactInfo (c : Conversation.t) : string :=
  "Contact: " +:+ Conversation.userName c
  +:+ String "010" "Started chatting to connect!".

Definition copyContactInfo : M Clip unit :=
  let* w := getClip in
  match selection w with
  | None => ret tt
  | Some selectedConversation =>
      writeText (contactInfo selectedConversation);;
      setCopied true;;
      setTimeout
  end.

(** The oldest pending callback runs: [() => setCopied(false)]. *)
Definition timeout : M Clip unit :=
  let* w := getClip in
  match timers w with
  | O => ret tt
  | S n => modify (fun w => mkClip (selection w) false (clipboard w) n)
  end.

Inductive ClipEvent : Type :=
| Copy                                   (* the copy button *)
| Timeout                                (* a pending callback runs *)
| Reselect (c : option Conversation.t).  (* the selection changes *)

Definition clipHandle (ev : ClipEvent) : M Clip unit :=
  match ev with
  | Copy => copyContactInfo
  | Timeout => timeout
  | Reselect c => modify (fun w => mkClip c (copied w) (clipboard w) (timers w))
  end.

Inductive clipReachable : Clip -> Prop :=
| clip_start c : clipReachable (mkClip c false [] 0)
| clip_event w ev : clipReachable w -> clipReachable (execM (clipHandle ev) w).

(** The page is mounted again on the browser state [y]. *)
Definition remount (storage : Storage.API) (MOCK_USERS : list MessagesPage.MockUser)
    (y : Sys) : World MessagesPage.State :=
  execM (MessagesPage.loadConversations storage MOCK_USERS)
    (mkWorld (App.reload y) MessagesPage.initial []).

(** The selection shows a conversation of the list: same identifier, user
    and messages. *)
Definition shown (l : list Conversation.t) (selected : option Conversation.t) : Prop :=
  match selected with
  | None => l = []
  | Some s =>
      exists c, c ∈ l
        /\ Conversation.id c = Conversation.id s
        /\ Conversation.userId c = Conversation.userId s
        /\ Conversation.userName c = Conversation.userName s
        /\ Conversation.userImage c = Conversation.userImage s
        /\ Conversation.lastMessage c = Conversation.lastMessage s
        /\ Conversation.unreadCount c = Conversation.unreadCount s
        /\ Conversation.messages c = Conversation.messages s
  end.

End MessagesView.

(** ** The route guards *)

Module Router.

Inductive Element : Type :=
| LoginPage
| HomePage
| MinePage
| MessagesPage
| Navigate (to : string) (replace : bool).

(** [isAuthenticated ? <Page /> : <Navigate to="/login" replace />] *)
Definition protected (page : Element) (isAuthenticated : bool) : Element :=
  if isAuthenticated then page else Navigate "/login" true.

(** [isAuthenticated ? <Navigate to="/" replace /> : <LoginPage />] *)
Definition loginRoute (isAuthenticated : bool) : Element :=
  if isAuthenticated then Navigate "/" true else LoginPage.

(** The routes that the notes give: /login, /mine and /messages with their
    guards, and / as the home page behind the same guard as the other
    pages. *)
Definition route (isAuthenticated : bool) (path : string) : option Element :=
  if String.eqb path "/login" then Some (loginRoute isAuthenticated)
  else if String.eqb path "/mine" then Some (protected MinePage isAuthenticated)
  else if String.eqb path "/messages" then Some (protected MessagesPage isAuthenticated)
  else if String.eqb path "/" then Some (protected HomePage isAuthenticated)
  else None.

(** Render [path], following [Navigate] elements for at most [fuel] steps:
    the path reached and what is shown there. *)
Fixpoint resolve (fuel : nat) (isAuthenticated : bool) (path : string)
  : option (string * Element) :=
  match route isAuthenticated path with
  | Some (Navigate to _) =>
      match fuel with
      | O => None
      | S n => resolve n isAuthenticated to
      end
  | Some page => Some (path, page)
  | None => None
  end.

End Router.

(** ** Conditions on the browser and on the login callback *)

Module Session.

(** Nothing of the storage manager is in the browser: a first visit, or the
    state after a logout. *)
Definition fresh (y : Sys) : Prop :=
  cache y = ∅
  /\ forall k, Js.startsWith k StorageManager.PREFIX = true -> localStorage y !! k = None.


End Session.

(** ** More sample runs *)

Module Samples.

(** A storage manager whose [remove] throws. *)
Definition brokenStorage : Storage.API :=
  Storage.mkAPI StorageManager.get StorageManager.set
    (fun _ => throw "storage unavailable")
    StorageManager.clearUserProfile StorageManager.clear.

(** Lower case for the letters A to Z; the other bytes are kept. *)
Definition lowerChar (c : ascii) : ascii :=
  if ((65 <=? N_of_ascii c) && (N_of_ascii c <=? 90))%N
  then ascii_of_N (N_of_ascii c + 32) else c.

Fixpoint asciiLower (s : string) : string :=
  match s with
  | EmptyString => EmptyString
  | String c s' => String (lowerChar c) (asciiLower s')
  end.

(** The root component of a logged-in user, on that storage manager. *)
Definition appBroken : World App.State :=
  App.mount brokenStorage 2 (App.reload Demo.sysLoggedIn) 0.

Definition noConversation : Conversation.t :=
  Conversation.mk "" "" "" None "" 0 0 [].

(** The conversation selected once the messages page is loaded. *)
Definition firstDefault : Conversation.t :=
  default noConversation (MessagesPage.selectedConversation (ui Demo.messagesLoaded)).

(** The messages page with one conversation left. *)
Definition oneLeft : World MessagesPage.State :=
  execM (MessagesPage.handleDeleteConversation Demo.storage "conv_u2") Demo.messagesLoaded.

(** The copy button pressed twice, and one callback run. *)
Definition clip : MessagesView.Clip :=
  execM (MessagesView.clipHandle MessagesView.Timeout)
    (execM (MessagesView.clipHandle MessagesView.Copy)
       (execM (MessagesView.clipHandle MessagesView.Copy)
          (MessagesView.mkClip (Some firstDefault) false [] 0))).

End Samples.

(** * Properties *)

(** ** Running the monad *)

Section run.
Context {S A B : Type}.

Lemma bind_ret (a : A) (k : A -> M S B) (s : S) : bind (ret a) k s = k a s.
Proof. reflexivity. Qed.

Lemma bind_bind {C} (m : M S A) (k : A -> M S B) (h : B -> M S C) (s : S) :
  bind (bind m k) h s = bind m (fun a => bind (k a) h) s.
Proof. unfold bind. destruct (m s) as [[a|e] s']; reflexivity. Qed.

End run.

Section runWorld.
Context {C B : Type}.

Lemma bind_getUi (k : C -> M (World C) B) (w : World C) :
  bind getUi k w = k (ui w) w.
Proof. reflexivity. Qed.

Lemma bind_setUi (f : C -> C) (k : unit -> M (World C) B) (w : World C) :
  bind (setUi f) k w = k tt (mkWorld (sys w) (f (ui w)) (calls w)).
Proof. reflexivity. Qed.

Lemma bind_call (c : Call) (k : unit -> M (World C) B) (w : World C) :
  bind (call c) k w = k tt (mkWorld (sys w) (ui w) (calls w ++ [c])).
Proof. reflexivity. Qed.

Lemma bind_liftSys {A} (m : M Sys A) (k : A -> M (World C) B) (w : World C) :
  bind (liftSys m) k w
  = match m (sys w) with
    | (Ok a, y) => k a (mkWorld y (ui w) (calls w))
    | (Throw e, y) => (Throw e, mkWorld y (ui w) (calls w))
    end.
Proof. unfold bind, liftSys. destruct (m (sys w)) as [[a|e] y]; reflexivity. Qed.

End runWorld.

(** ** JavaScript strings *)

Example trim_both_ends : Js.trim "  a b  " = "a b".
Proof. reflexivity. Qed.

Example trim_blank : Js.trim (String "009" (String "010" (String "013" " "))) = "".
Proof. reflexivity. Qed.

(** U+00A0 before, U+3000 and U+FEFF after. *)
Example trim_unicode :
  Js.trim (String "194" (String "160"
            ("x" +:+ String "227" (String "128" (String "128"
                       (String "239" (String "187" (String "191" ""))))))))
  = "x".
Proof. reflexivity. Qed.

(** U+00E0 ends in the byte 160 without being a white space. *)
Example trim_keeps_letters :
  Js.trim (String "195" (String "160" " ")) = String "195" (String "160" "").
Proof. reflexivity. Qed.

(** ** The storage manager *)

Lemma foldr_delete_lookup (P : string -> bool) (ks : list string)
    (m : gmap string Entry) (k : string) :
  foldr (fun k m => if P k then delete k m else m) m ks !! k
  = if P k && bool_decide (k ∈ ks) then None else m !! k.
Proof.
  induction ks as [|k0 ks IH]; simpl.
  - by rewrite andb_false_r.
  - destruct (P k0) eqn:HP0.
    + destruct (decide (k = k0)) as [->|Hne].
      * rewrite lookup_delete_eq, HP0. simpl.
        rewrite bool_decide_eq_true_2; [done | left].
      * rewrite lookup_delete_ne by done. rewrite IH.
        destruct (P k); simpl; [|done].
        destruct (decide (k ∈ ks)) as [Hin|Hnin].
        -- rewrite !bool_decide_eq_true_2; [done | by right | done].
        -- rewrite !bool_decide_eq_false_2; [done | | done].
           intros [?|?]%elem_of_cons; done.
    + rewrite IH. destruct (P k) eqn:HP; simpl; [|done].
      destruct (decide (k ∈ ks)) as [Hin|Hnin].
      * rewrite !bool_decide_eq_true_2; [done | by right | done].
      * rewrite !bool_decide_eq_false_2; [done | | done].
        intros [->|?]%elem_of_cons; [congruence | done].
Qed.

Lemma clear_lookup (ls : gmap string Entry) (k : string) :
  foldr (fun k m => if Js.startsWith k StorageManager.PREFIX then delete k m else m)
        ls (map_to_list ls).*1 !! k
  = if Js.startsWith k StorageManager.PREFIX then None else ls !! k.
Proof.
  rewrite foldr_delete_lookup.
  destruct (Js.startsWith k StorageManager.PREFIX); simpl; [|done].
  case_bool_decide as Hin; [done|].
  destruct (ls !! k) as [e|] eqn:Hk; [|done].
  exfalso. apply Hin. apply list_elem_of_fmap. exists (k, e). split; [done|].
  by apply elem_of_map_to_list.
Qed.

(** ** Logout *)

(** C1. After [handleLogout], run with the storage manager, local storage
    holds no key that starts with the prefix loveinthecity_ and no key
    funloves_token; the handler returns normally, every other key keeps its
    entry, the manager's mirror is empty and the authenticated flag is
    false. *)
Theorem logout_clears_storage (w : World App.State) :
  let m := App.handleLogout StorageManager.getInstance in
  resultM m w = Ok tt
  /\ (forall k, Js.startsWith k "loveinthecity_" = true ->
        localStorage (sys (execM m w)) !! k = None)
  /\ localStorage (sys (execM m w)) !! "funloves_token" = None
  /\ (forall k, Js.startsWith k "loveinthecity_" = false -> k <> "funloves_token" ->
        localStorage (sys (execM m w)) !! k = localStorage (sys w) !! k)
  /\ cache (sys (execM m w)) = ∅
  /\ App.isAuthenticated (ui (execM m w)) = false.
Proof.
  cbv zeta. destruct w as [[ls ch ck tk rd dr] st cs].
  unfold App.handleLogout, execM, resultM; simpl.
  split; [reflexivity|].
  change "loveinthecity_" with StorageManager.PREFIX.
  repeat split.
  - intros k Hk. rewrite clear_lookup, Hk. reflexivity.
  - rewrite clear_lookup.
    replace (Js.startsWith "funloves_token" StorageManager.PREFIX) with false
      by reflexivity.
    rewrite !lookup_delete_ne by discriminate. apply lookup_delete_eq.
  - intros k Hk Hne. rewrite clear_lookup, Hk.
    assert (k <> StorageManager.PREFIX +:+ "userProfile")
      by (intros ->; discriminate Hk).
    assert (k <> StorageManager.PREFIX +:+ "userSession")
      by (intros ->; discriminate Hk).
    rewrite !lookup_delete_ne by done. reflexivity.
Qed.
(** ** The login page *)

Lemma trim_nonempty (s : string) : Js.trim s <> "" -> s <> "".
Proof. intros H ->. apply H. reflexivity. Qed.

Lemma get_result (k : string) (y : Sys) :
  resultM (StorageManager.get k) y
  = Ok (match cache y !! k with
        | Some it => Some (data it)
        | None =>
            match localStorage y !! (StorageManager.PREFIX +:+ k) with
            | Some (Item it) => Some (data it)
            | _ => None
            end
        end).
Proof.
  unfold resultM, StorageManager.get.
  destruct (cache y !! k); [reflexivity|].
  destruct (localStorage y !! _) as [[?|?]|]; reflexivity.
Qed.

(** What [handleLogin] does on a form with both fields filled in, up to the
    call of [onLogin]. *)
Lemma login_nonblank_run (onLogin : M Sys unit) (w : World LoginPage.State) :
  Js.trim (LoginPage.phone (ui w)) <> "" ->
  Js.trim (LoginPage.password (ui w)) <> "" ->
  let y := sys w in
  let phone := LoginPage.phone (ui w) in
  let session :=
    UserSession.mk ("user_" +:+ random y (draws y)) phone true
      (Js.toISOString (clock y (ticks y))) (clock y (S (ticks y))) in
  let y0 := mkSys (localStorage y) (cache y) (clock y) (S (S (ticks y))) (random y) (S (draws y)) in
  let y1 := execM (StorageManager.set "userSession" (VSession session) (Some LoginPage.sessionTTL)) y0 in
  let y2 :=
    match resultM (StorageManager.get "userProfile") y1 with
    | Ok None =>
        execM (StorageManager.set "userProfile"
                 (VProfile (UserProfile.mk (UserSession.id session) "User" 25
                    ("https://api.dicebear.com/7.x/avataaars/svg?seed=" +:+ phone)
                    false 0 0 0)) None) y1
    | _ => y1
    end in
  LoginPage.handleLogin StorageManager.getInstance onLogin w
  = tryCatch (liftSys onLogin) LoginPage.handleLogin_catch
      (mkWorld y2
         (LoginPage.mkState phone (LoginPage.password (ui w)) "" false)
         (calls w ++ [CallOnLogin])).
Proof.
  destruct w as [[ls ch ck tk rd dr] [ph pw er ld] cs]; simpl. intros H1 H2.
  unfold LoginPage.handleLogin, LoginPage.setError, LoginPage.setLoading.
  rewrite bind_getUi, !bind_setUi. simpl.
  unfold LoginPage.handleLogin_try.
  assert (Hph : Js.truthy (Js.trim ph) = true) by (destruct (Js.trim ph); done).
  assert (Hpw : Js.truthy (Js.trim pw) = true) by (destruct (Js.trim pw); done).
  rewrite Hph, Hpw. simpl negb. cbv iota.
  unfold tryCatch at 1.
  repeat (rewrite bind_liftSys; simpl).
  unfold StorageManager.get, resultM, execM. simpl.
  rewrite !lookup_insert_ne by discriminate.
  destruct (ch !! "userProfile") as [it|]; simpl.
  { unfold LoginPage.setLoading. rewrite bind_ret, bind_setUi, bind_call. reflexivity. }
  destruct (ls !! (StorageManager.PREFIX +:+ "userProfile")) as [[raw|it]|]; simpl;
    rewrite ?bind_liftSys; simpl;
    unfold LoginPage.setLoading; rewrite ?bind_ret, bind_setUi, bind_call; reflexivity.
Qed.

(** C3. When the phone number or the password is empty after trimming,
    [handleLogin] returns normally with the validation message set (the
    phone message first) and shown, the loading flag cleared, the browser
    state as it was (nothing is written, whatever the storage manager is)
    and no call made: [onLogin] is not invoked. *)
Theorem login_blank_field_rejected (storage : Storage.API) (onLogin : M Sys unit)
    (w : World LoginPage.State) :
  Js.trim (LoginPage.phone (ui w)) = "" \/ Js.trim (LoginPage.password (ui w)) = "" ->
  let message :=
    if Js.truthy (Js.trim (LoginPage.phone (ui w)))
    then LoginPage.MSG_PASSWORD else LoginPage.MSG_PHONE in
  LoginPage.handleLogin storage onLogin w
  = (Ok tt,
     mkWorld (sys w)
       (LoginPage.mkState (LoginPage.phone (ui w)) (LoginPage.password (ui w))
          message false)
       (calls w))
  /\ Js.truthy message = true.
Proof.
  destruct w as [y [ph pw er ld] cs]; simpl. intros H. split.
  - unfold LoginPage.handleLogin, LoginPage.setError, LoginPage.setLoading.
    rewrite bind_getUi, !bind_setUi. simpl.
    unfold LoginPage.handleLogin_try, tryCatch.
    destruct (Js.truthy (Js.trim ph)) eqn:Hph; simpl.
    + destruct H as [H|H]; [rewrite H in Hph; discriminate|].
      rewrite H. reflexivity.
    + reflexivity.
  - destruct (Js.truthy (Js.trim ph)); reflexivity.
Qed.

(** C4. A login with both fields filled in writes, through the storage
    manager, a session record under the key loveinthecity_userSession: an
    identifier user_ followed by the random draw, the phone number as typed,
    the authenticated flag set, the login time and the last-active time read
    from the clock, and a time to live of 24 hours. [onLogin] is called
    after that, once, with the loading flag already cleared. *)
Theorem login_creates_session (onLogin : M Sys unit) (w : World LoginPage.State) :
  Js.trim (LoginPage.phone (ui w)) <> "" ->
  Js.trim (LoginPage.password (ui w)) <> "" ->
  let y := sys w in
  let session :=
    UserSession.mk ("user_" +:+ random y (draws y)) (LoginPage.phone (ui w)) true
      (Js.toISOString (clock y (ticks y))) (clock y (S (ticks y))) in
  exists w1,
    LoginPage.handleLogin StorageManager.getInstance onLogin w
    = tryCatch (liftSys onLogin) LoginPage.handleLogin_catch w1
    /\ localStorage (sys w1) !! "loveinthecity_userSession"
       = Some (Item (mkItem (VSession session) (Some 86400000)))
    /\ resultM (StorageManager.get "userSession") (sys w1) = Ok (Some (VSession session))
    /\ calls w1 = (calls w ++ [CallOnLogin])%list
    /\ LoginPage.loading (ui w1) = false
    /\ LoginPage.error (ui w1) = ""
    /\ LoginPage.phone (ui w) <> "" /\ LoginPage.password (ui w) <> "".
Proof.
  intros Hph Hpw. cbv zeta. eexists. split; [apply login_nonblank_run; assumption|].
  simpl. rewrite get_result.
  destruct w as [[ls ch ck tk rd dr] [ph pw er ld] cs]; simpl in *.
  rewrite get_result; simpl.
  rewrite (lookup_insert_ne (M:=gmap string)) by discriminate.
  change (StorageManager.PREFIX +:+ "userSession") with "loveinthecity_userSession".
  repeat split; try (by apply trim_nonempty).
  - destruct (ch !! "userProfile") as [it|]; simpl.
    { apply lookup_insert_eq. }
    rewrite lookup_insert_ne by discriminate.
    destruct (ls !! _) as [[?|?]|]; simpl;
      rewrite ?lookup_insert_ne by discriminate; apply lookup_insert_eq.
  - destruct (ch !! "userProfile") as [it|]; simpl.
    { rewrite lookup_insert_eq. reflexivity. }
    rewrite lookup_insert_ne by discriminate.
    destruct (ls !! _) as [[?|?]|]; simpl;
      rewrite ?lookup_insert_ne by discriminate; rewrite lookup_insert_eq; reflexivity.
Qed.

(** C5. On a login with both fields filled in: when the storage manager
    finds no user profile, a default profile is written under
    loveinthecity_userProfile, with the identifier of the new session, the
    name User, age 25, the avatar URL seeded with the phone number, no VIP
    flag and zero following, fans and wallet; when it finds one, the entry
    of the profile in local storage and in the manager's mirror is the one
    that was there, and the manager still returns the same profile. *)
Theorem login_default_profile (onLogin : M Sys unit) (w : World LoginPage.State) :
  Js.trim (LoginPage.phone (ui w)) <> "" ->
  Js.trim (LoginPage.password (ui w)) <> "" ->
  let y := sys w in
  let profile :=
    UserProfile.mk ("user_" +:+ random y (draws y)) "User" 25
      ("https://api.dicebear.com/7.x/avataaars/svg?seed=" +:+ LoginPage.phone (ui w))
      false 0 0 0 in
  exists w1,
    LoginPage.handleLogin StorageManager.getInstance onLogin w
    = tryCatch (liftSys onLogin) LoginPage.handleLogin_catch w1
    /\ (resultM (StorageManager.get "userProfile") y = Ok None ->
        localStorage (sys w1) !! "loveinthecity_userProfile"
          = Some (Item (mkItem (VProfile profile) None))
        /\ resultM (StorageManager.get "userProfile") (sys w1) = Ok (Some (VProfile profile))
        /\ exists session t,
             localStorage (sys w1) !! "loveinthecity_userSession"
               = Some (Item (mkItem (VSession session) t))
             /\ UserProfile.id profile = UserSession.id session)
    /\ (forall v, resultM (StorageManager.get "userProfile") y = Ok (Some v) ->
        localStorage (sys w1) !! "loveinthecity_userProfile"
          = localStorage y !! "loveinthecity_userProfile"
        /\ cache (sys w1) !! "userProfile" = cache y !! "userProfile"
        /\ resultM (StorageManager.get "userProfile") (sys w1) = Ok (Some v)).
Proof.
  intros Hph Hpw. cbv zeta. eexists. split; [apply login_nonblank_run; assumption|].
  destruct w as [[ls ch ck tk rd dr] [ph pw er ld] cs]; simpl in *.
  rewrite !get_result; simpl.
  change (StorageManager.PREFIX +:+ "userProfile") with "loveinthecity_userProfile".
  change (StorageManager.PREFIX +:+ "userSession") with "loveinthecity_userSession".
  rewrite (lookup_insert_ne (M:=gmap string) ch) by discriminate.
  rewrite (lookup_insert_ne (M:=gmap string) ls) by discriminate.
  destruct (ch !! "userProfile") as [it|] eqn:Hc; simpl.
  { split; [discriminate|]. intros v Hv.
    rewrite !lookup_insert_ne by discriminate. rewrite Hc. done. }
  destruct (ls !! "loveinthecity_userProfile") as [[raw|it]|] eqn:Hl; simpl.
  - split; [intros _|discriminate].
    rewrite !lookup_insert_eq. simpl.
    split; [reflexivity|]. split; [reflexivity|].
    eexists _, _. split.
    + rewrite lookup_insert_ne by discriminate. apply lookup_insert_eq.
    + reflexivity.
  - split; [discriminate|]. intros v Hv.
    rewrite !lookup_insert_ne by discriminate. rewrite Hc, Hl. done.
  - split; [intros _|discriminate].
    rewrite !lookup_insert_eq. simpl.
    split; [reflexivity|]. split; [reflexivity|].
    eexists _, _. split.
    + rewrite lookup_insert_ne by discriminate. apply lookup_insert_eq.
    + reflexivity.
Qed.

(** C7. [handleLogin] never lets an exception out, whatever the storage
    manager and [onLogin] do; and when the block under [try] throws, the
    handler returns normally from the state reached at the throw, with the
    generic failure message set and the loading flag cleared. *)
Theorem login_exception_caught (storage : Storage.API) (onLogin : M Sys unit)
    (w : World LoginPage.State) :
  let phone := LoginPage.phone (ui w) in
  let password := LoginPage.password (ui w) in
  let w0 := mkWorld (sys w) (LoginPage.mkState phone password "" true) (calls w) in
  resultM (LoginPage.handleLogin storage onLogin) w = Ok tt
  /\ forall e w1,
       LoginPage.handleLogin_try storage onLogin phone password w0 = (Throw e, w1) ->
       LoginPage.handleLogin storage onLogin w
       = (Ok tt,
          mkWorld (sys w1)
            (LoginPage.mkState (LoginPage.phone (ui w1)) (LoginPage.password (ui w1))
               LoginPage.MSG_FAILED false)
            (calls w1))
       /\ Js.truthy LoginPage.MSG_FAILED = true.
Proof.
  destruct w as [y [ph pw er ld] cs]; simpl.
  unfold resultM, LoginPage.handleLogin, LoginPage.setError, LoginPage.setLoading.
  rewrite bind_getUi, !bind_setUi. simpl. unfold tryCatch.
  destruct (LoginPage.handleLogin_try storage onLogin ph pw _) as [[[]|e] w1] eqn:Hrun.
  - split; [reflexivity|]. intros e w1' [=].
  - split; [reflexivity|]. intros e' w1' [= <- <-]. split; reflexivity.
Qed.

(** ** The root component *)

Lemma sameState_refl (s : App.State) : App.sameState s s = true.
Proof.
  unfold App.sameState. rewrite !Bool.eqb_reflx, Nat.eqb_refl. reflexivity.
Qed.

(** Effect #1 always returns normally and marks the component mounted; it
    sets the flag when the manager gave back a valid session. *)
Lemma effect1_run (storage : Storage.API) (w : World App.State) :
  let r := Storage.get storage "userSession" (sys w) in
  let valid := match fst r with Ok v => App.validSession v | Throw _ => false end in
  App.effect1 storage w
  = (Ok tt,
     mkWorld (snd r)
       (App.mkState (valid || App.isAuthenticated (ui w)) true (App.navigate (ui w))
          (App.effect1Ran (ui w)) (App.effect2Deps (ui w)))
       (calls w)).
Proof.
  destruct w as [y [a m n e1 e2] cs]; simpl.
  unfold App.effect1, tryCatch. rewrite bind_liftSys. simpl.
  destruct (Storage.get storage "userSession" y) as [[v|e] y']; simpl.
  - destruct (App.validSession v); reflexivity.
  - reflexivity.
Qed.

(** The first render of a freshly loaded page: the session check runs, the
    gate sees [mounted = false] and stays shut. *)
Lemma commit_first (storage : Storage.API) (y : Sys) (n : nat) (cs : list Call) :
  let r := Storage.get storage "userSession" y in
  let valid := match fst r with Ok v => App.validSession v | Throw _ => false end in
  App.commit storage (mkWorld y (App.initial n) cs)
  = (Ok tt, mkWorld (snd r) (App.mkState valid true n true (Some (false, n, false))) cs).
Proof.
  cbv zeta. unfold App.commit. rewrite bind_getUi. simpl.
  unfold App.markEffect1. rewrite bind_bind, bind_setUi. simpl.
  unfold bind at 1 2. rewrite effect1_run. simpl.
  rewrite orb_false_r. reflexivity.
Qed.

(** A later render: only the gate may run, and only on changed dependencies. *)
Lemma commit_later (storage : Storage.API) (w : World App.State) :
  App.effect1Ran (ui w) = true ->
  App.commit storage w
  = (Ok tt,
     if decide (App.effect2Deps (ui w) = Some (App.deps (ui w))) then w
     else mkWorld (sys w)
            (App.mkState (App.isAuthenticated (ui w)) (App.mounted (ui w))
               (App.navigate (ui w)) true (Some (App.deps (ui w))))
            (calls w ++ (if App.mounted (ui w) && negb (App.isAuthenticated (ui w))
                         then [App.toLogin] else []))).
Proof.
  destruct w as [y [a m n e1 e2] cs]; simpl. intros ->.
  unfold App.commit. rewrite bind_getUi. simpl. rewrite bind_ret.
  case_decide as Hd; simpl; [reflexivity|].
  unfold App.recordEffect2. rewrite bind_setUi. simpl.
  unfold App.effect2; simpl.
  destruct (m && negb a); simpl; [reflexivity|].
  unfold ret. rewrite app_nil_r. reflexivity.
Qed.

Lemma renderLoop_later (storage : Storage.API) (fuel : nat) (w : World App.State) :
  App.effect1Ran (ui w) = true ->
  App.renderLoop storage (S fuel) w = App.commit storage w.
Proof.
  intros He. simpl. rewrite bind_getUi.
  unfold bind at 1. rewrite (commit_later storage w He).
  rewrite bind_getUi.
  case_decide; simpl; rewrite sameState_refl || idtac.
  - reflexivity.
  - unfold App.sameState; simpl.
    rewrite !Bool.eqb_reflx, Nat.eqb_refl. reflexivity.
Qed.

(** The world once the page is loaded, given two renders or more. *)
Lemma mount_run (storage : Storage.API) (fuel : nat) (y : Sys) (n : nat) :
  (2 <= fuel)%nat ->
  let r := Storage.get storage "userSession" y in
  let valid := match fst r with Ok v => App.validSession v | Throw _ => false end in
  App.mount storage fuel y n
  = mkWorld (snd r) (App.mkState valid true n true (Some (valid, n, true)))
      (if valid then [] else [App.toLogin]).
Proof.
  intros Hf. destruct fuel as [|[|fuel]]; [lia|lia|]. cbv zeta.
  unfold App.mount, execM.
  change (App.renderLoop storage (S (S fuel)))
    with (let* before := getUi in
          App.commit storage;;
          let* after := getUi in
          if App.sameState before after then ret tt
          else App.renderLoop storage (S fuel)).
  rewrite bind_getUi. unfold bind at 1. rewrite commit_first.
  rewrite bind_getUi.
  set (valid := match (Storage.get storage "userSession" y).1 with
                | Ok v => App.validSession v | Throw _ => false end).
  unfold App.sameState. simpl ui. simpl App.mounted.
  simpl (Bool.eqb false true). rewrite andb_false_r.
  rewrite (andb_false_l (Nat.eqb _ _)). cbv iota.
  rewrite renderLoop_later by reflexivity.
  rewrite commit_later by reflexivity. simpl.
  case_decide as Hd; [unfold App.deps in Hd; simpl in Hd; congruence|].
  unfold App.deps. simpl.
  destruct valid; reflexivity.
Qed.

(** Handlers write the authenticated flag, the navigate function and the
    browser state, and nothing else. *)
Lemma handle_frame (storage : Storage.API) (ev : App.Event) (w : World App.State) :
  let w' := execM (tryCatch (App.handle storage ev) (fun _ => ret tt)) w in
  App.mounted (ui w') = App.mounted (ui w)
  /\ App.effect1Ran (ui w') = App.effect1Ran (ui w)
  /\ App.effect2Deps (ui w') = App.effect2Deps (ui w)
  /\ calls w' = calls w.
Proof.
  destruct w as [y [a m n e1 e2] cs]. unfold execM, tryCatch.
  destruct ev as [writes| |n']; simpl.
  - unfold App.handleLogin. rewrite bind_liftSys. simpl.
    destruct (writes y) as [[[]|e] y']; simpl; done.
  - unfold App.handleLogout. rewrite bind_liftSys. simpl.
    rewrite bind_liftSys. simpl.
    destruct (Storage.remove storage _ _) as [[[]|e] y1]; simpl; [|done].
    rewrite bind_liftSys. simpl.
    destruct (Storage.clearUserProfile storage _) as [[[]|e] y2]; simpl; [|done].
    rewrite bind_liftSys. simpl.
    destruct (Storage.clear storage _) as [[[]|e] y3]; simpl; done.
  - done.
Qed.

Lemma dispatch_run (storage : Storage.API) (fuel : nat) (ev : App.Event)
    (w : World App.State) :
  App.effect1Ran (ui w) = true ->
  execM (App.dispatch storage (S fuel) ev) w
  = execM (App.commit storage)
      (execM (tryCatch (App.handle storage ev) (fun _ => ret tt)) w).
Proof.
  intros He. unfold App.dispatch, execM at 1 2 3.
  pose proof (handle_frame storage ev w) as (_ & He' & _). unfold execM in He'.
  unfold bind at 1.
  destruct (tryCatch (App.handle storage ev) (fun _ => ret tt) w) as [[[]|e] w'] eqn:Hh.
  - simpl snd in He'. cbv beta iota.
    rewrite renderLoop_later by congruence. reflexivity.
  - exfalso. unfold tryCatch in Hh.
    destruct (App.handle storage ev w) as [[[]|e'] w'']; discriminate.
Qed.

Lemma reachable_settled (storage : Storage.API) (fuel : nat) (w : World App.State) :
  (2 <= fuel)%nat -> App.reachable storage fuel w -> App.settled w.
Proof.
  intros Hf Hr. induction Hr as [y n|w ev Hr IH].
  - rewrite mount_run by done. repeat split.
  - destruct IH as (He & Hm & Hd).
    destruct fuel as [|fuel]; [lia|].
    rewrite dispatch_run by done.
    pose proof (handle_frame storage ev w) as (Hm' & He' & Hd' & _).
    cbv zeta in *.
    set (w' := execM (tryCatch (App.handle storage ev) (fun _ => ret tt)) w) in *.
    unfold execM at 1. rewrite commit_later by congruence. simpl.
    case_decide as Hc.
    + repeat split; congruence.
    + repeat split; simpl; try congruence.
Qed.


(** C6. Once the page is loaded, whatever the storage manager is: the
    component is mounted, and the authenticated flag is true if and only
    if the manager returned a session record whose own flag is set. It is
    false in particular when the manager returned nothing, another kind of
    record, or threw. *)
Theorem mount_session_check (storage : Storage.API) (fuel : nat) (y : Sys) (n : nat) :
  (2 <= fuel)%nat ->
  let w := App.mount storage fuel y n in
  App.mounted (ui w) = true
  /\ (App.isAuthenticated (ui w) = true
      <-> exists s, resultM (Storage.get storage "userSession") y = Ok (Some (VSession s))
                    /\ UserSession.isAuthenticated s = true)
  /\ (resultM (Storage.get storage "userSession") y = Ok None ->
      App.isAuthenticated (ui w) = false).
Proof.
  intros Hf. rewrite mount_run by done. simpl. unfold resultM.
  split; [done|].
  destruct (Storage.get storage "userSession" y) as [[[[s|p|l]|]|e] y']; simpl.
  - split; [split|discriminate].
    + intros Hs. exists s. done.
    + intros (s' & [= <-] & Hs). done.
  - split; [split|discriminate]; [discriminate|]. intros (s' & Hs & _). discriminate.
  - split; [split|discriminate]; [discriminate|]. intros (s' & Hs & _). discriminate.
  - split; [split|done]; [discriminate|]. intros (s' & Hs & _). discriminate.
  - split; [split|done]; [discriminate|]. intros (s' & Hs & _). discriminate.
Qed.

(** With the storage manager, a session in local storage survives a reload
    of the page and authenticates the user again. *)
Lemma reload_keeps_session (fuel : nat) (y : Sys) (n : nat) (s : UserSession.t)
    (t : option Z) :
  (2 <= fuel)%nat ->
  localStorage y !! "loveinthecity_userSession" = Some (Item (mkItem (VSession s) t)) ->
  UserSession.isAuthenticated s = true ->
  App.isAuthenticated (ui (App.mount StorageManager.getInstance fuel (App.reload y) n))
  = true.
Proof.
  intros Hf Hl Hs. rewrite mount_run by done. simpl.
  unfold StorageManager.get. simpl. rewrite lookup_empty.
  change (StorageManager.PREFIX +:+ "userSession") with "loveinthecity_userSession".
  rewrite Hl. simpl. exact Hs.
Qed.

(** ** The messages page *)

Lemma sameStorage_refl (y : Sys) : sameStorage y y.
Proof. by repeat split. Qed.

Lemma sameStorage_dateNow (y : Sys) : sameStorage y (execM dateNow y).
Proof. by repeat split. Qed.

Lemma sameStorage_trans (y1 y2 y3 : Sys) :
  sameStorage y1 y2 -> sameStorage y2 y3 -> sameStorage y1 y3.
Proof.
  intros (?&?&?&?&?) (?&?&?&?&?). repeat split; congruence.
Qed.

(** The [.map] of [handleSendMessage] returns normally, relates the lists
    entry by entry, and only reads the clock. *)
Lemma send_map (selectedId : string) (m : Message.t) (x : string)
    (convs : list Conversation.t) (y : Sys) :
  exists updated y',
    mapM (fun conv =>
            if String.eqb (Conversation.id conv) selectedId
            then let* t := dateNow in ret (MessagesPage.withNewMessage conv m x t)
            else ret conv) convs y
    = (Ok updated, y')
    /\ Forall2 (MessagesPage.sent (clock y) selectedId m x) convs updated
    /\ sameStorage y y'.
Proof.
  revert y. induction convs as [|c convs IH]; intros y; simpl.
  - exists [], y. split; [reflexivity|]. split; [constructor | apply sameStorage_refl].
  - destruct (String.eqb_spec (Conversation.id c) selectedId) as [He|Hne].
    + rewrite bind_bind. unfold bind at 1. simpl. rewrite bind_ret.
      destruct (IH (execM dateNow y)) as (updated & y' & Hrun & Hall & Hsame).
      unfold execM in Hrun. simpl in Hrun.
      unfold bind at 1. rewrite Hrun.
      eexists _, y'. split; [reflexivity|]. split.
      * constructor; [|exact Hall]. unfold MessagesPage.sent.
        rewrite decide_True by done. exists (ticks y). reflexivity.
      * eapply sameStorage_trans; [apply sameStorage_dateNow | exact Hsame].
    + rewrite bind_ret.
      destruct (IH y) as (updated & y' & Hrun & Hall & Hsame).
      unfold bind at 1. rewrite Hrun.
      eexists _, y'. split; [reflexivity|]. split; [|exact Hsame].
      constructor; [|exact Hall]. unfold MessagesPage.sent.
      rewrite decide_False by done. reflexivity.
Qed.

(** [handleSendMessage] on a non-blank input and a selection, up to the call
    of the storage manager. *)
Lemma send_run (storage : Storage.API) (w : World MessagesPage.State)
    (selected : Conversation.t) :
  let st := ui w in
  let input := MessagesPage.messageInput st in
  let y := sys w in
  let newMessage :=
    Message.mk ("msg_" +:+ pretty (clock y (ticks y))) (Conversation.id selected) "me"
      input (clock y (S (ticks y))) true in
  Js.trim input <> "" ->
  MessagesPage.selectedConversation st = Some selected ->
  exists updated y1,
    Forall2 (MessagesPage.sent (clock y) (Conversation.id selected) newMessage input)
      (MessagesPage.conversations st) updated
    /\ sameStorage y y1
    /\ MessagesPage.handleSendMessage storage w
       = (liftSys (Storage.set storage "conversations" (VConversations updated) None);;
          let* tSel := liftSys dateNow in
          MessagesPage.setSelectedConversation
            (Some (MessagesPage.withNewMessage selected newMessage input tSel));;
          MessagesPage.setMessageInput "")
           (mkWorld y1 (MessagesPage.mkState updated (Some selected) input) (calls w)).
Proof.
  destruct w as [y [convs sel input] cs]. simpl. intros Hin ->.
  unfold MessagesPage.handleSendMessage. rewrite bind_getUi. simpl.
  assert (Ht : Js.truthy (Js.trim input) = true) by (destruct (Js.trim input); done).
  rewrite Ht. do 3 (rewrite bind_liftSys; simpl).
  destruct (send_map (Conversation.id selected)
              (Message.mk ("msg_" +:+ pretty (clock y (ticks y)))
                 (Conversation.id selected) "me" input (clock y (S (ticks y))) true)
              input convs
              (mkSys (localStorage y) (cache y) (clock y) (S (S (ticks y)))
                 (random y) (draws y)))
    as (updated & y1 & Hrun & Hall & Hsame).
  rewrite Hrun. exists updated, y1. split; [exact Hall|]. split.
  - destruct Hsame as (?&?&?&?&?). simpl in *. by repeat split.
  - unfold MessagesPage.setConversations. rewrite bind_setUi. reflexivity.
Qed.

Lemma send_message_idle (storage : Storage.API) (w : World MessagesPage.State) :
  Js.trim (MessagesPage.messageInput (ui w)) = ""
  \/ MessagesPage.selectedConversation (ui w) = None ->
  MessagesPage.handleSendMessage storage w = (Ok tt, w).
Proof.
  destruct w as [y [convs sel input] cs]. simpl. intros H.
  unfold MessagesPage.handleSendMessage. rewrite bind_getUi. simpl.
  destruct H as [-> | ->]; [reflexivity|].
  destruct (Js.truthy (Js.trim input)); reflexivity.
Qed.

(** C8. On a non-blank input with a conversation selected, [handleSendMessage]
    builds one message (sender me, read, the input as text, the identifier
    of the selection as conversation identifier) and maps the list entry by
    entry: an entry with the identifier of the selection gets the message
    appended, the input as last message and a clock reading as last message
    time; any other entry is kept as it is. The new list is handed to the
    storage manager under the key conversations, nothing having been
    written before; when that call returns, the handler returns with the
    new list as state, the selection updated the same way and the input
    empty. On a blank input, or without a selection, the handler returns
    with the world as it was. *)
Theorem send_message (storage : Storage.API) (w : World MessagesPage.State) :
  let st := ui w in
  let input := MessagesPage.messageInput st in
  let y := sys w in
  (forall selected,
     Js.trim input <> "" ->
     MessagesPage.selectedConversation st = Some selected ->
     let newMessage :=
       Message.mk ("msg_" +:+ pretty (clock y (ticks y))) (Conversation.id selected)
         "me" input (clock y (S (ticks y))) true in
     exists updated y1,
       Forall2 (MessagesPage.sent (clock y) (Conversation.id selected) newMessage input)
         (MessagesPage.conversations st) updated
       /\ sameStorage y y1
       /\ forall y2,
            Storage.set storage "conversations" (VConversations updated) None y1
            = (Ok tt, y2) ->
            MessagesPage.handleSendMessage storage w
            = (Ok tt,
               mkWorld (execM dateNow y2)
                 (MessagesPage.mkState updated
                    (Some (MessagesPage.withNewMessage selected newMessage input
                             (clock y2 (ticks y2))))
                    "")
                 (calls w)))
  /\ (Js.trim input = "" \/ MessagesPage.selectedConversation st = None ->
      MessagesPage.handleSendMessage storage w = (Ok tt, w)).
Proof.
  cbv zeta. split.
  - intros selected Hin Hsel.
    destruct (send_run storage w selected Hin Hsel) as (updated & y1 & Hall & Hsame & Hrun).
    exists updated, y1. split; [exact Hall|]. split; [exact Hsame|].
    intros y2 Hset. rewrite Hrun. rewrite bind_liftSys. simpl. rewrite Hset.
    rewrite bind_liftSys. simpl. reflexivity.
  - apply send_message_idle.
Qed.

(** C9. [handleDeleteConversation] keeps, in their order, the conversations
    whose identifier differs from its argument, and hands that list to the
    storage manager under the key conversations; when that call returns, the
    list is the new state, and the selection is the first conversation kept
    (none if there is none) when the selection had the identifier deleted,
    and is unchanged otherwise. *)
Theorem delete_conversation (storage : Storage.API) (w : World MessagesPage.State)
    (conversationId : string) (y2 : Sys) :
  let st := ui w in
  let filtered :=
    filter (fun c => Conversation.id c <> conversationId) (MessagesPage.conversations st) in
  Storage.set storage "conversations" (VConversations filtered) None (sys w) = (Ok tt, y2) ->
  MessagesPage.handleDeleteConversation storage conversationId w
  = (Ok tt,
     mkWorld y2
       (MessagesPage.mkState filtered
          (match MessagesPage.selectedConversation st with
           | Some selected =>
               if decide (Conversation.id selected = conversationId)
               then head filtered else Some selected
           | None => None
           end)
          (MessagesPage.messageInput st))
       (calls w))
  /\ (forall c, c ∈ filtered <->
                c ∈ MessagesPage.conversations st /\ Conversation.id c <> conversationId)
  /\ sublist filtered (MessagesPage.conversations st).
Proof.
  destruct w as [y [convs sel input] cs]. simpl. intros Hset. split; [|split].
  - unfold MessagesPage.handleDeleteConversation. rewrite bind_getUi. simpl.
    unfold MessagesPage.setConversations. rewrite bind_setUi. simpl.
    rewrite bind_liftSys. simpl. rewrite Hset.
    destruct sel as [selected|]; [|reflexivity].
    destruct (String.eqb_spec (Conversation.id selected) conversationId) as [He|Hne].
    + rewrite decide_True by done. reflexivity.
    + rewrite decide_False by done. reflexivity.
  - intros c. rewrite list_elem_of_filter. tauto.
  - apply sublist_filter.
Qed.

Lemma default_consistent (user : MessagesPage.MockUser) (i : Z) (y : Sys) :
  exists c y',
    MessagesPage.defaultConversation user i y = (Ok c, y')
    /\ MessagesPage.consistent c.
Proof.
  eexists _, _. split; [reflexivity|].
  unfold MessagesPage.consistent. simpl. repeat constructor.
Qed.

Lemma defaults_consistent (l : list MessagesPage.MockUser) (i : Z) (y : Sys) :
  exists defaults y',
    mapMi MessagesPage.defaultConversation i l y = (Ok defaults, y')
    /\ MessagesPage.allConsistent defaults.
Proof.
  revert i y. induction l as [|user l IH]; intros i y.
  - exists [], y. split; [reflexivity | constructor].
  - destruct (default_consistent user i y) as (c & y0 & Hc & Hcons).
    destruct (IH (i + 1) y0) as (defaults & y' & Hrun & Hall).
    exists (c :: defaults), y'. split.
    + change (mapMi MessagesPage.defaultConversation i (user :: l))
        with (let* c0 := MessagesPage.defaultConversation user i in
              let* ys := mapMi MessagesPage.defaultConversation (i + 1) l in
              ret (c0 :: ys)).
      unfold bind at 1. rewrite Hc. unfold bind at 1. rewrite Hrun. reflexivity.
    + constructor; assumption.
Qed.

Lemma sent_consistent (ck : nat -> Z) (selectedId : string) (m : Message.t) (x : string)
    (convs updated : list Conversation.t) :
  Message.conversationId m = selectedId ->
  Forall2 (MessagesPage.sent ck selectedId m x) convs updated ->
  MessagesPage.allConsistent convs -> MessagesPage.allConsistent updated.
Proof.
  intros Hm Hall Hc. induction Hall as [|c c' convs updated Hs Hall IH].
  - constructor.
  - inversion Hc as [|? ? Hc1 Hc2]; subst. constructor; [|by apply IH].
    unfold MessagesPage.sent in Hs. case_decide as Hid.
    + destruct Hs as (k & ->). unfold MessagesPage.consistent. simpl.
      apply Forall_app. split; [exact Hc1|]. repeat constructor. congruence.
    + by subst.
Qed.

(** C10. In every state that the messages page reaches, from a mount on a
    storage manager that has no conversation to give back, through sending,
    deleting, selecting and typing, every message of every conversation of
    the list carries the identifier of its conversation. *)
Theorem conversations_consistent (storage : Storage.API)
    (MOCK_USERS : list MessagesPage.MockUser) (w : World MessagesPage.State) :
  MessagesPage.reachable storage MOCK_USERS w ->
  MessagesPage.allConsistent (MessagesPage.conversations (ui w)).
Proof.
  intros Hr. induction Hr as [y Hnone|w ev Hr IH].
  - unfold execM, MessagesPage.loadConversations. rewrite bind_liftSys. simpl.
    unfold MessagesPage.holdsNoConversations, resultM in Hnone.
    destruct (Storage.get storage "conversations" y) as [[saved|e] y0] eqn:Hget;
      simpl in *; [|constructor].
    assert (Hdef :
      MessagesPage.allConsistent
        (MessagesPage.conversations
           (ui (snd ((let* defaults := liftSys (MessagesPage.defaultConversations MOCK_USERS) in
                    liftSys (Storage.set storage "conversations" (VConversations defaults) None);;
                    MessagesPage.setConversations defaults;;
                    MessagesPage.setSelectedConversation (head defaults))
                   (mkWorld y0 MessagesPage.initial [])))))).
    { rewrite bind_liftSys. simpl. unfold MessagesPage.defaultConversations.
      destruct (defaults_consistent
                  (take 5 (filter (fun u => MessagesPage.id u <> "support") MOCK_USERS)) 0 y0)
        as (defaults & y' & Hrun & Hall).
      rewrite Hrun. rewrite bind_liftSys. simpl.
      destruct (Storage.set storage "conversations" _ None y') as [[[]|e] y'']; simpl.
      - exact Hall.
      - constructor. }
    destruct saved as [[s|p|[|c l]]|]; try exact Hdef.
    exfalso. by eapply Hnone.
  - destruct ev as [|conversationId|i|x].
    + (* Send *)
      simpl MessagesPage.handle. unfold execM.
      destruct (MessagesPage.selectedConversation (ui w)) as [selected|] eqn:Hsel.
      2:{ rewrite send_message_idle by (right; exact Hsel). exact IH. }
      destruct (Js.trim (MessagesPage.messageInput (ui w))) eqn:Hin.
      { rewrite send_message_idle by (left; exact Hin). exact IH. }
      assert (Hne : Js.trim (MessagesPage.messageInput (ui w)) <> "") by (rewrite Hin; done).
      destruct (send_run storage w selected Hne Hsel) as (updated & y1 & Hall & _ & Hrun).
      rewrite Hrun. rewrite bind_liftSys. simpl.
      assert (Hup : MessagesPage.allConsistent updated).
      { eapply sent_consistent; [|exact Hall|exact IH]. reflexivity. }
      destruct (Storage.set storage "conversations" _ None y1) as [[[]|e] y2]; simpl.
      * exact Hup.
      * exact Hup.
    + (* Delete *)
      simpl MessagesPage.handle. destruct w as [y [convs sel input] cs]. simpl in IH.
      unfold execM, MessagesPage.handleDeleteConversation. rewrite bind_getUi. simpl.
      unfold MessagesPage.setConversations. rewrite bind_setUi. simpl.
      rewrite bind_liftSys. simpl.
      assert (Hf : MessagesPage.allConsistent
                (filter (fun c => Conversation.id c <> conversationId) convs))
        by (apply Forall_forall; intros c [_ Hc]%list_elem_of_filter;
            revert c Hc; apply Forall_forall, IH).
      destruct (Storage.set storage "conversations" _ None y) as [[[]|e] y2]; simpl;
        [|exact Hf].
      destruct sel as [selected|]; [|exact Hf].
      destruct (String.eqb _ _); exact Hf.
    + (* Select *)
      destruct w as [y [convs sel input] cs]. simpl in *.
      unfold execM. rewrite bind_getUi. simpl.
      destruct (convs !! i); exact IH.
    + (* Input *)
      destruct w as [y [convs sel input] cs]. exact IH.
Qed.

(** ** The properties on the sample runs *)

Lemma logout_clears_storage_witness :
  Js.startsWith "loveinthecity_userSession" "loveinthecity_" = true
  /\ localStorage (sys Demo.appLoggedIn) !! "loveinthecity_userSession" <> None
  /\ localStorage (sys Demo.appLoggedIn) !! "funloves_token" <> None
  /\ localStorage (sys (execM (App.handleLogout StorageManager.getInstance)
                          Demo.appLoggedIn))
       !! "loveinthecity_userSession" = None
  /\ localStorage (sys (execM (App.handleLogout StorageManager.getInstance)
                          Demo.appLoggedIn))
       !! "funloves_token" = None.
Proof.
  pose proof (logout_clears_storage Demo.appLoggedIn) as (_ & Hprefix & Htoken & _).
  split; [reflexivity|]. split; [vm_compute; discriminate|].
  split; [vm_compute; discriminate|]. split.
  - apply Hprefix. reflexivity.
  - exact Htoken.
Defined.


Lemma login_blank_field_rejected_witness :
  (Js.trim "   " = "" \/ Js.trim "testpass123" = "")
  /\ LoginPage.handleLogin Demo.storage Demo.onLogin Demo.blankForm
     = (Ok tt,
        mkWorld Demo.sys0
          (LoginPage.mkState "   " "testpass123" LoginPage.MSG_PHONE false) []).
Proof.
  assert (H : Js.trim "   " = "" \/ Js.trim "testpass123" = "") by (left; reflexivity).
  split; [exact H|].
  exact (proj1 (login_blank_field_rejected Demo.storage Demo.onLogin Demo.blankForm H)).
Defined.

Lemma login_creates_session_witness :
  Js.trim "1234567890" <> "" /\ Js.trim "testpass123" <> ""
  /\ localStorage Demo.sysLoggedIn !! "loveinthecity_userSession"
     = Some (Item (mkItem
          (VSession (UserSession.mk "user_k3j9x0q1z" "1234567890" true
                       (Js.toISOString 1700000000000) 1700000000001))
          (Some 86400000))).
Proof.
  assert (H1 : Js.trim "1234567890" <> "") by (vm_compute; discriminate).
  assert (H2 : Js.trim "testpass123" <> "") by (vm_compute; discriminate).
  split; [exact H1|]. split; [exact H2|].
  destruct (login_creates_session Demo.onLogin Demo.loginForm H1 H2)
    as (w1 & Hrun & Hls & _).
  unfold Demo.sysLoggedIn, execM, Demo.storage. rewrite Hrun.
  unfold tryCatch, liftSys, Demo.onLogin. simpl.
  rewrite lookup_insert_ne by discriminate. exact Hls.
Defined.

Lemma login_default_profile_witness :
  Js.trim "1234567890" <> "" /\ Js.trim "testpass123" <> ""
  /\ resultM (StorageManager.get "userProfile") Demo.sys0 = Ok None
  /\ localStorage Demo.sysLoggedIn !! "loveinthecity_userProfile"
     = Some (Item (mkItem
          (VProfile (UserProfile.mk "user_k3j9x0q1z" "User" 25
                       "https://api.dicebear.com/7.x/avataaars/svg?seed=1234567890"
                       false 0 0 0))
          None)).
Proof.
  assert (H1 : Js.trim "1234567890" <> "") by (vm_compute; discriminate).
  assert (H2 : Js.trim "testpass123" <> "") by (vm_compute; discriminate).
  assert (H3 : resultM (StorageManager.get "userProfile") Demo.sys0 = Ok None)
    by reflexivity.
  split; [exact H1|]. split; [exact H2|]. split; [exact H3|].
  destruct (login_default_profile Demo.onLogin Demo.loginForm H1 H2)
    as (w1 & Hrun & Hnew & _).
  destruct (Hnew H3) as (Hls & _).
  unfold Demo.sysLoggedIn, execM, Demo.storage. rewrite Hrun.
  unfold tryCatch, liftSys, Demo.onLogin. simpl.
  rewrite lookup_insert_ne by discriminate. exact Hls.
Defined.

Lemma mount_session_check_witness :
  (2 <= 2)%nat
  /\ App.isAuthenticated (ui Demo.appLoggedIn) = true
  /\ App.isAuthenticated (ui (App.mount Demo.storage 2 Demo.sys0 0)) = false.
Proof.
  assert (Hf : (2 <= 2)%nat) by lia.
  split; [exact Hf|]. split.
  - apply (mount_session_check Demo.storage 2%nat (App.reload Demo.sysLoggedIn) 0%nat Hf).
    exists (UserSession.mk "user_k3j9x0q1z" "1234567890" true
              (Js.toISOString 1700000000000) 1700000000001).
    split; reflexivity.
  - apply (mount_session_check Demo.storage 2%nat Demo.sys0 0%nat Hf). reflexivity.
Defined.

Lemma login_exception_caught_witness :
  fst (LoginPage.handleLogin_try Demo.storage Demo.failingOnLogin
         "1234567890" "testpass123"
         (mkWorld Demo.sys0 (LoginPage.mkState "1234567890" "testpass123" "" true) []))
  = Throw "onLogin failed"
  /\ resultM (LoginPage.handleLogin Demo.storage Demo.failingOnLogin) Demo.loginForm
     = Ok tt
  /\ LoginPage.error
       (ui (execM (LoginPage.handleLogin Demo.storage Demo.failingOnLogin) Demo.loginForm))
     = LoginPage.MSG_FAILED
  /\ LoginPage.loading
       (ui (execM (LoginPage.handleLogin Demo.storage Demo.failingOnLogin) Demo.loginForm))
     = false.
Proof.
  destruct (login_exception_caught Demo.storage Demo.failingOnLogin Demo.loginForm)
    as (Hok & Hcatch).
  assert (Hthrow :
    fst (LoginPage.handleLogin_try Demo.storage Demo.failingOnLogin
           "1234567890" "testpass123"
           (mkWorld Demo.sys0 (LoginPage.mkState "1234567890" "testpass123" "" true) []))
    = Throw "onLogin failed") by (vm_compute; reflexivity).
  split; [exact Hthrow|]. split; [exact Hok|].
  destruct (Hcatch "onLogin failed"
              (snd (LoginPage.handleLogin_try Demo.storage Demo.failingOnLogin
                      "1234567890" "testpass123"
                      (mkWorld Demo.sys0
                         (LoginPage.mkState "1234567890" "testpass123" "" true) []))))
    as (Hrun & _).
  { rewrite <- Hthrow. apply surjective_pairing. }
  unfold execM. rewrite Hrun. split; reflexivity.
Defined.

Lemma send_message_witness :
  exists selected,
    Js.trim (MessagesPage.messageInput (ui Demo.messagesTyped)) <> ""
    /\ MessagesPage.selectedConversation (ui Demo.messagesTyped) = Some selected
    /\ exists updated,
         Forall2
           (MessagesPage.sent (clock (sys Demo.messagesTyped)) (Conversation.id selected)
              (Message.mk
                 ("msg_" +:+ pretty (clock (sys Demo.messagesTyped)
                                       (ticks (sys Demo.messagesTyped))))
                 (Conversation.id selected) "me"
                 (MessagesPage.messageInput (ui Demo.messagesTyped))
                 (clock (sys Demo.messagesTyped) (S (ticks (sys Demo.messagesTyped))))
                 true)
              (MessagesPage.messageInput (ui Demo.messagesTyped)))
           (MessagesPage.conversations (ui Demo.messagesTyped)) updated
         /\ MessagesPage.conversations (ui Demo.messagesSent) = updated
         /\ MessagesPage.messageInput (ui Demo.messagesSent) = ""
         /\ localStorage (sys Demo.messagesSent) !! "loveinthecity_conversations"
            = Some (Item (mkItem (VConversations updated) None)).
Proof.
  assert (H1 : Js.trim (MessagesPage.messageInput (ui Demo.messagesTyped)) <> "")
    by (vm_compute; discriminate).
  destruct (MessagesPage.selectedConversation (ui Demo.messagesTyped))
    as [selected|] eqn:Hsel; [|vm_compute in Hsel; discriminate].
  exists selected. split; [exact H1|]. split; [reflexivity|].
  destruct (proj1 (send_message Demo.storage Demo.messagesTyped) selected H1 Hsel)
    as (updated & y1 & Hall & _ & Hrun).
  specialize (Hrun _ eq_refl).
  exists updated. split; [exact Hall|].
  change Demo.messagesSent
    with (snd (MessagesPage.handleSendMessage Demo.storage Demo.messagesTyped)).
  rewrite Hrun. split; [reflexivity|]. split; [reflexivity|].
  apply lookup_insert_eq.
Defined.

Lemma delete_conversation_witness :
  let filtered :=
    filter (fun c => Conversation.id c <> "conv_u1")
      (MessagesPage.conversations (ui Demo.messagesLoaded)) in
  let y2 :=
    execM (StorageManager.set "conversations" (VConversations filtered) None)
      (sys Demo.messagesLoaded) in
  Storage.set Demo.storage "conversations" (VConversations filtered) None
    (sys Demo.messagesLoaded) = (Ok tt, y2)
  /\ MessagesPage.conversations
       (ui (execM (MessagesPage.handleDeleteConversation Demo.storage "conv_u1")
              Demo.messagesLoaded))
     = filtered
  /\ localStorage
       (sys (execM (MessagesPage.handleDeleteConversation Demo.storage "conv_u1")
               Demo.messagesLoaded))
     !! "loveinthecity_conversations"
     = Some (Item (mkItem (VConversations filtered) None)).
Proof.
  cbv zeta.
  assert (Hset :
    Storage.set Demo.storage "conversations"
      (VConversations
         (filter (fun c => Conversation.id c <> "conv_u1")
            (MessagesPage.conversations (ui Demo.messagesLoaded)))) None
      (sys Demo.messagesLoaded)
    = (Ok tt,
       execM (StorageManager.set "conversations"
                (VConversations
                   (filter (fun c => Conversation.id c <> "conv_u1")
                      (MessagesPage.conversations (ui Demo.messagesLoaded)))) None)
         (sys Demo.messagesLoaded))) by reflexivity.
  split; [exact Hset|].
  destruct (delete_conversation Demo.storage Demo.messagesLoaded "conv_u1" _ Hset)
    as (Hrun & _).
  unfold execM at 1 2. rewrite Hrun. split; [reflexivity|].
  apply lookup_insert_eq.
Defined.

Lemma conversations_consistent_witness :
  MessagesPage.reachable Demo.storage Demo.MOCK_USERS Demo.messagesSent
  /\ MessagesPage.allConsistent (MessagesPage.conversations (ui Demo.messagesSent)).
Proof.
  assert (Hr : MessagesPage.reachable Demo.storage Demo.MOCK_USERS Demo.messagesSent).
  { unfold Demo.messagesSent, Demo.messagesTyped, Demo.messagesLoaded.
    do 2 apply MessagesPage.reach_event. apply MessagesPage.reach_load.
    intros c l H. vm_compute in H. discriminate H. }
  split; [exact Hr|].
  exact (conversations_consistent Demo.storage Demo.MOCK_USERS Demo.messagesSent Hr).
Defined.

(** * Further properties *)

(** ** The login form *)

(** The block under [try] leaves the two fields alone; when it returns, the
    loading flag is off and the message is the validation message, or the
    one it found. *)
Lemma login_try_frame (storage : Storage.API) (onLogin : M Sys unit)
    (ph pw : string) (w0 : World LoginPage.State) :
  let r := LoginPage.handleLogin_try storage onLogin ph pw w0 in
  LoginPage.phone (ui (snd r)) = LoginPage.phone (ui w0)
  /\ LoginPage.password (ui (snd r)) = LoginPage.password (ui w0)
  /\ (fst r = Ok tt ->
      LoginPage.loading (ui (snd r)) = false
      /\ LoginPage.error (ui (snd r))
         = if negb (Js.truthy (Js.trim ph)) then LoginPage.MSG_PHONE
           else if negb (Js.truthy (Js.trim pw)) then LoginPage.MSG_PASSWORD
           else LoginPage.error (ui w0))
  /\ (forall e, fst r = Throw e ->
      Js.truthy (Js.trim ph) = true /\ Js.truthy (Js.trim pw) = true).
Proof.
  destruct w0 as [y [ph0 pw0 er ld] cs]. cbv zeta.
  unfold LoginPage.handleLogin_try.
  destruct (Js.truthy (Js.trim ph)); cbn [negb]; [|by repeat split].
  destruct (Js.truthy (Js.trim pw)); cbn [negb]; [|by repeat split].
  do 3 (rewrite bind_liftSys; simpl).
  rewrite bind_liftSys. simpl.
  destruct (Storage.set storage "userSession" _ _ _) as [[[]|e] y1]; simpl;
    [|by repeat split].
  rewrite bind_liftSys. simpl.
  destruct (Storage.get storage "userProfile" y1) as [[[v|]|e] y2]; simpl;
    [| |by repeat split].
  - rewrite bind_ret. unfold LoginPage.setLoading. rewrite bind_setUi, bind_call. simpl.
    unfold liftSys. simpl. destruct (onLogin y2) as [[[]|e] y3]; simpl; by repeat split.
  - rewrite bind_liftSys. simpl.
    destruct (Storage.set storage "userProfile" _ _ _) as [[[]|e] y3]; simpl;
      [|by repeat split].
    unfold LoginPage.setLoading. rewrite bind_setUi, bind_call. simpl.
    unfold liftSys. simpl. destruct (onLogin y3) as [[[]|e] y4]; simpl; by repeat split.
Qed.

(** X1. Whatever the storage manager and [onLogin] do, [handleLogin] ends
    with the loading flag off and the two fields as typed, and the message
    is: the phone message on a blank phone number, else the password message
    on a blank password, else empty when the block under [try] returned and
    the failure message when it threw. A message left by an earlier
    submission does not survive. *)
Theorem login_form_after (storage : Storage.API) (onLogin : M Sys unit)
    (w : World LoginPage.State) :
  let phone := LoginPage.phone (ui w) in
  let password := LoginPage.password (ui w) in
  let w0 := mkWorld (sys w) (LoginPage.mkState phone password "" true) (calls w) in
  let w' := execM (LoginPage.handleLogin storage onLogin) w in
  LoginPage.loading (ui w') = false
  /\ LoginPage.phone (ui w') = phone
  /\ LoginPage.password (ui w') = password
  /\ LoginPage.error (ui w')
     = if negb (Js.truthy (Js.trim phone)) then LoginPage.MSG_PHONE
       else if negb (Js.truthy (Js.trim password)) then LoginPage.MSG_PASSWORD
       else match fst (LoginPage.handleLogin_try storage onLogin phone password w0) with
            | Ok _ => ""
            | Throw _ => LoginPage.MSG_FAILED
            end.
Proof.
  destruct w as [y [ph pw er ld] cs]. cbv zeta. simpl ui. simpl sys. simpl calls.
  simpl LoginPage.phone. simpl LoginPage.password.
  unfold execM, LoginPage.handleLogin, LoginPage.setError, LoginPage.setLoading.
  rewrite bind_getUi, !bind_setUi. simpl. unfold tryCatch.
  pose proof (login_try_frame storage onLogin ph pw
                (mkWorld y (LoginPage.mkState ph pw "" true) cs)) as Hf.
  cbv zeta in Hf. simpl in Hf.
  destruct (LoginPage.handleLogin_try storage onLogin ph pw _) as [[[]|e] w1]; simpl in *.
  - destruct Hf as (Hp & Hw & Hok & _). destruct (Hok eq_refl) as (Hl & He).
    repeat split; assumption.
  - destruct Hf as (Hp & Hw & _ & Hthrow). destruct (Hthrow e eq_refl) as (-> & ->).
    repeat split; assumption.
Qed.

Lemma login_try_password (storage : Storage.API) (onLogin : M Sys unit)
    (ph p1 p2 a b er : string) (ld : bool) (y : Sys) (cs : list Call) :
  Js.truthy (Js.trim p1) = true -> Js.truthy (Js.trim p2) = true ->
  let r1 := LoginPage.handleLogin_try storage onLogin ph p1
              (mkWorld y (LoginPage.mkState ph a er ld) cs) in
  let r2 := LoginPage.handleLogin_try storage onLogin ph p2
              (mkWorld y (LoginPage.mkState ph b er ld) cs) in
  fst r1 = fst r2
  /\ sys (snd r1) = sys (snd r2)
  /\ calls (snd r1) = calls (snd r2)
  /\ LoginPage.error (ui (snd r1)) = LoginPage.error (ui (snd r2))
  /\ LoginPage.loading (ui (snd r1)) = LoginPage.loading (ui (snd r2)).
Proof.
  intros H1 H2. cbv zeta. unfold LoginPage.handleLogin_try. rewrite H1, H2.
  destruct (Js.truthy (Js.trim ph)); cbn [negb]; [|by repeat split].
  do 3 (rewrite !bind_liftSys; simpl).
  rewrite !bind_liftSys. simpl.
  destruct (Storage.set storage "userSession" _ _ _) as [[[]|e] y1]; simpl;
    [|by repeat split].
  rewrite !bind_liftSys. simpl.
  destruct (Storage.get storage "userProfile" y1) as [[[v|]|e] y2]; simpl;
    [| |by repeat split].
  - rewrite !bind_ret. unfold LoginPage.setLoading. rewrite !bind_setUi, !bind_call. simpl.
    unfold liftSys. simpl. destruct (onLogin y2) as [[[]|e] y3]; simpl; by repeat split.
  - rewrite !bind_liftSys. simpl.
    destruct (Storage.set storage "userProfile" _ _ _) as [[[]|e] y3]; simpl;
      [|by repeat split].
    unfold LoginPage.setLoading. rewrite !bind_setUi, !bind_call. simpl.
    unfold liftSys. simpl. destruct (onLogin y3) as [[[]|e] y4]; simpl; by repeat split.
Qed.

(** X2. The password is only tested for being blank: two submissions that
    differ in their non-blank passwords alone return the same way, leave the
    same browser state (so the same storage), make the same calls and show
    the same message. The password is not stored and not compared with
    anything. *)
Theorem login_ignores_password (storage : Storage.API) (onLogin : M Sys unit)
    (y : Sys) (phone p1 p2 error : string) (loading : bool) (cs : list Call) :
  Js.trim p1 <> "" -> Js.trim p2 <> "" ->
  let r1 := LoginPage.handleLogin storage onLogin
              (mkWorld y (LoginPage.mkState phone p1 error loading) cs) in
  let r2 := LoginPage.handleLogin storage onLogin
              (mkWorld y (LoginPage.mkState phone p2 error loading) cs) in
  fst r1 = fst r2
  /\ sys (snd r1) = sys (snd r2)
  /\ calls (snd r1) = calls (snd r2)
  /\ LoginPage.error (ui (snd r1)) = LoginPage.error (ui (snd r2)).
Proof.
  intros H1 H2. cbv zeta.
  assert (Ht1 : Js.truthy (Js.trim p1) = true) by (destruct (Js.trim p1); done).
  assert (Ht2 : Js.truthy (Js.trim p2) = true) by (destruct (Js.trim p2); done).
  unfold LoginPage.handleLogin, LoginPage.setError, LoginPage.setLoading.
  rewrite !bind_getUi, !bind_setUi. simpl. unfold tryCatch.
  pose proof (login_try_password storage onLogin phone p1 p2 p1 p2 "" true y cs Ht1 Ht2)
    as (Hr & Hs & Hc & He & Hl).
  destruct (LoginPage.handleLogin_try storage onLogin phone p1 _) as [[[]|e1] w1];
    destruct (LoginPage.handleLogin_try storage onLogin phone p2 _) as [[[]|e2] w2];
    simpl in *; try discriminate; repeat split; assumption.
Qed.

Lemma login_ignores_password_witness :
  Js.trim "testpass123" <> "" /\ Js.trim "x" <> ""
  /\ sys (snd (LoginPage.handleLogin Demo.storage Demo.onLogin
                 (mkWorld Demo.sys0
                    (LoginPage.mkState "1234567890" "testpass123" "" false) [])))
     = sys (snd (LoginPage.handleLogin Demo.storage Demo.onLogin
                   (mkWorld Demo.sys0 (LoginPage.mkState "1234567890" "x" "" false) []))).
Proof.
  assert (H1 : Js.trim "testpass123" <> "") by (vm_compute; discriminate).
  assert (H2 : Js.trim "x" <> "") by (vm_compute; discriminate).
  split; [exact H1|]. split; [exact H2|].
  exact (proj1 (proj2 (login_ignores_password Demo.storage Demo.onLogin Demo.sys0
                         "1234567890" "testpass123" "x" "" false [] H1 H2))).
Defined.

(** ** Login, logout and reload together *)

Lemma startsWith_prefixed (k : string) :
  Js.startsWith (StorageManager.PREFIX +:+ k) StorageManager.PREFIX = true.
Proof. unfold Js.startsWith. simpl. by destruct k. Qed.

Lemma fresh_get_none (y : Sys) (k : string) :
  Session.fresh y -> StorageManager.get k y = (Ok None, y).
Proof.
  intros (Hc & Hl). unfold StorageManager.get. rewrite Hc, lookup_empty.
  rewrite Hl; [reflexivity|]. apply startsWith_prefixed.
Qed.

(** What [handleLogout] does with the storage manager. *)
Lemma logout_run (w : World App.State) :
  exists y',
    App.handleLogout StorageManager.getInstance w
    = (Ok tt,
       mkWorld y'
         (App.mkState false (App.mounted (ui w)) (App.navigate (ui w))
            (App.effect1Ran (ui w)) (App.effect2Deps (ui w)))
         (calls w))
    /\ Session.fresh y'
    /\ (forall k, localStorage y' !! k
                  = if Js.startsWith k StorageManager.PREFIX
                       || String.eqb k "funloves_token"
                    then None else localStorage (sys w) !! k)
    /\ clock y' = clock (sys w) /\ ticks y' = ticks (sys w)
    /\ random y' = random (sys w) /\ draws y' = draws (sys w).
Proof.
  destruct w as [[ls ch ck tk rd dr] [a m n e1 e2] cs].
  eexists. split; [reflexivity|]. simpl. split; [|split].
  - split; [reflexivity|]. simpl. intros k Hk. rewrite clear_lookup, Hk. reflexivity.
  - intros k. rewrite clear_lookup.
    destruct (Js.startsWith k StorageManager.PREFIX) eqn:Hk; [reflexivity|]. simpl.
    assert (k <> StorageManager.PREFIX +:+ "userProfile") by (intros ->; discriminate Hk).
    assert (k <> StorageManager.PREFIX +:+ "userSession") by (intros ->; discriminate Hk).
    rewrite !lookup_delete_ne by done.
    destruct (String.eqb_spec k "funloves_token") as [->|Hne].
    + apply lookup_delete_eq.
    + by rewrite lookup_delete_ne.
  - done.
Qed.

(** What [handleLogin] leaves in storage on a filled-in form, at the call of
    [onLogin]. *)
Lemma login_run_entries (onLogin : M Sys unit) (w : World LoginPage.State) :
  Js.trim (LoginPage.phone (ui w)) <> "" ->
  Js.trim (LoginPage.password (ui w)) <> "" ->
  exists w1 session,
    LoginPage.handleLogin StorageManager.getInstance onLogin w
    = tryCatch (liftSys onLogin) LoginPage.handleLogin_catch w1
    /\ localStorage (sys w1) !! "loveinthecity_userSession"
       = Some (Item (mkItem (VSession session) (Some LoginPage.sessionTTL)))
    /\ UserSession.isAuthenticated session = true
    /\ LoginPage.error (ui w1) = "" /\ LoginPage.loading (ui w1) = false
    /\ (Session.fresh (sys w) ->
        forall k, Js.startsWith k StorageManager.PREFIX = true ->
          (is_Some (localStorage (sys w1) !! k)
           <-> k = "loveinthecity_userSession" \/ k = "loveinthecity_userProfile")).
Proof.
  intros Hph Hpw.
  destruct w as [[ls ch ck tk rd dr] [ph pw er ld] cs]; simpl in *.
  eexists _, (UserSession.mk ("user_" +:+ rd dr) ph true (Js.toISOString (ck tk))
                (ck (S tk))).
  split; [apply login_nonblank_run; assumption|]. simpl.
  rewrite get_result; simpl.
  change (StorageManager.PREFIX +:+ "userProfile") with "loveinthecity_userProfile".
  change (StorageManager.PREFIX +:+ "userSession") with "loveinthecity_userSession".
  rewrite (lookup_insert_ne (M:=gmap string) ch) by discriminate.
  rewrite (lookup_insert_ne (M:=gmap string) ls) by discriminate.
  split; [|split; [reflexivity|split; [reflexivity|split; [reflexivity|]]]].
  - destruct (ch !! "userProfile") as [it|]; simpl; [apply lookup_insert_eq|].
    destruct (ls !! "loveinthecity_userProfile") as [[raw|it]|]; simpl;
      rewrite ?lookup_insert_ne by discriminate; apply lookup_insert_eq.
  - intros (Hc & Hl) k Hk. simpl in Hc, Hl. subst ch. rewrite lookup_empty.
    rewrite (Hl "loveinthecity_userProfile") by reflexivity. simpl.
    destruct (decide (k = "loveinthecity_userProfile")) as [->|Hp].
    { rewrite lookup_insert_eq. split; [by right | by eexists]. }
    rewrite lookup_insert_ne by done.
    destruct (decide (k = "loveinthecity_userSession")) as [->|Hs].
    { rewrite lookup_insert_eq. split; [by left | by eexists]. }
    rewrite lookup_insert_ne by done. rewrite (Hl k Hk).
    split; [intros [? [=]] | intros [?|?]; done].
Qed.


(** X4. On a browser without anything of the storage manager, a login on a
    filled-in form leaves, at the call of [onLogin], exactly two prefixed
    keys in local storage: loveinthecity_userSession and
    loveinthecity_userProfile. *)
Theorem login_fresh_keys (onLogin : M Sys unit) (w : World LoginPage.State) :
  Js.trim (LoginPage.phone (ui w)) <> "" ->
  Js.trim (LoginPage.password (ui w)) <> "" ->
  Session.fresh (sys w) ->
  exists w1,
    LoginPage.handleLogin StorageManager.getInstance onLogin w
    = tryCatch (liftSys onLogin) LoginPage.handleLogin_catch w1
    /\ forall k, Js.startsWith k "loveinthecity_" = true ->
         (is_Some (localStorage (sys w1) !! k)
          <-> k = "loveinthecity_userSession" \/ k = "loveinthecity_userProfile").
Proof.
  intros Hph Hpw Hfresh.
  destruct (login_run_entries onLogin w Hph Hpw) as (w1 & s & Hrun & _ & _ & _ & _ & Hkeys).
  exists w1. split; [exact Hrun|]. exact (Hkeys Hfresh).
Qed.

(** X5. After [handleLogout] nothing of the storage manager is left, and a
    page loaded on that browser, reloaded or not, ends unauthenticated with
    exactly one redirect to the login screen. *)
Theorem logout_then_mount (w : World App.State) (fuel n : nat) :
  (2 <= fuel)%nat ->
  let y' := sys (execM (App.handleLogout StorageManager.getInstance) w) in
  Session.fresh y'
  /\ (forall a,
        a = App.mount StorageManager.getInstance fuel y' n
        \/ a = App.mount StorageManager.getInstance fuel (App.reload y') n ->
        App.isAuthenticated (ui a) = false
        /\ App.mounted (ui a) = true
        /\ calls a = [App.toLogin]).
Proof.
  intros Hf. cbv zeta. destruct (logout_run w) as (y' & Hrun & Hfresh & _).
  unfold execM. rewrite Hrun. simpl. split; [exact Hfresh|].
  assert (Hr : Session.fresh (App.reload y')).
  { destruct Hfresh as (Hc & Hl). split; [reflexivity | exact Hl]. }
  intros a [-> | ->]; rewrite mount_run by done; simpl;
    rewrite fresh_get_none by assumption; done.
Qed.

(** X6. Logging out twice is logging out once. *)
Theorem logout_idempotent (w : World App.State) :
  let logout := App.handleLogout StorageManager.getInstance in
  execM logout (execM logout w) = execM logout w.
Proof.
  cbv zeta. destruct (logout_run w) as (y1 & Hrun1 & (Hc1 & Hf1) & Hl1 & Hk1 & Ht1 & Hr1 & Hd1).
  unfold execM at 2 3. rewrite Hrun1. simpl.
  destruct (logout_run
              (mkWorld y1
                 (App.mkState false (App.mounted (ui w)) (App.navigate (ui w))
                    (App.effect1Ran (ui w)) (App.effect2Deps (ui w)))
                 (calls w)))
    as (y2 & Hrun2 & (Hc2 & Hf2) & Hl2 & Hk2 & Ht2 & Hr2 & Hd2).
  unfold execM. rewrite Hrun2. simpl in *. f_equal.
  destruct y1 as [ls1 ch1 ck1 tk1 rd1 dr1], y2 as [ls2 ch2 ck2 tk2 rd2 dr2].
  simpl in *. subst. f_equal.
  apply map_eq. intros k. rewrite Hl2, Hl1.
  destruct (Js.startsWith k StorageManager.PREFIX || String.eqb k "funloves_token");
    reflexivity.
Qed.

(** X7. [handleLogout] has no [try]: with a storage manager whose calls may
    throw, either all of them return and the flag is set to false, or one
    throws, the exception leaves the handler and the React state is as it
    was. In that case, in a loaded page with the user authenticated, the
    event ends with the user still authenticated and without redirect. *)
Theorem logout_all_or_nothing (storage : Storage.API) (w : World App.State) :
  let r := App.handleLogout storage w in
  calls (snd r) = calls w
  /\ (fst r = Ok tt ->
      App.isAuthenticated (ui (snd r)) = false /\ App.mounted (ui (snd r)) = App.mounted (ui w))
  /\ (forall e, fst r = Throw e ->
      ui (snd r) = ui w
      /\ forall fuel, (2 <= fuel)%nat -> App.reachable storage fuel w ->
           App.isAuthenticated (ui w) = true ->
           let w' := execM (App.dispatch storage fuel App.Logout) w in
           App.isAuthenticated (ui w') = true /\ calls w' = calls w).
Proof.
  cbv zeta.
  assert (Hcases :
    calls (snd (App.handleLogout storage w)) = calls w
    /\ (fst (App.handleLogout storage w) = Ok tt ->
        App.isAuthenticated (ui (snd (App.handleLogout storage w))) = false
        /\ App.mounted (ui (snd (App.handleLogout storage w))) = App.mounted (ui w))
    /\ (forall e, fst (App.handleLogout storage w) = Throw e ->
        ui (snd (App.handleLogout storage w)) = ui w)).
  { destruct w as [y [a m n e1 e2] cs].
    unfold App.handleLogout. rewrite bind_liftSys. simpl.
    rewrite bind_liftSys. simpl.
    destruct (Storage.remove storage _ _) as [[[]|e] y1]; simpl; [|by repeat split].
    rewrite bind_liftSys. simpl.
    destruct (Storage.clearUserProfile storage _) as [[[]|e] y2]; simpl; [|by repeat split].
    rewrite bind_liftSys. simpl.
    destruct (Storage.clear storage _) as [[[]|e] y3]; simpl; by repeat split. }
  destruct Hcases as (Hc & Hok & Hthrow).
  split; [exact Hc|]. split; [exact Hok|].
  intros e He. split; [exact (Hthrow e He)|].
  intros fuel Hf Hr Ha.
  destruct (reachable_settled storage fuel w Hf Hr) as (He1 & Hm & Hd).
  destruct fuel as [|fuel]; [lia|].
  rewrite dispatch_run by done.
  assert (Hh : execM (tryCatch (App.handle storage App.Logout) (fun _ => ret tt)) w
               = mkWorld (sys (snd (App.handleLogout storage w))) (ui w) (calls w)).
  { unfold execM, tryCatch. simpl App.handle.
    specialize (Hthrow e He).
    destruct (App.handleLogout storage w) as [[[]|e'] [y' u' c']]; simpl in *;
      [discriminate|]. by subst. }
  rewrite Hh. unfold execM. rewrite commit_later by exact He1. simpl.
  rewrite decide_True by exact Hd. simpl. done.
Qed.

(** X8. Once the page is loaded and an event has been handled, rendering
    again changes nothing, however often: the effects do not run again and
    no redirect is repeated. *)
Theorem settled_renders_nothing (storage : Storage.API) (fuel : nat)
    (w : World App.State) (k : nat) :
  (2 <= fuel)%nat -> App.reachable storage fuel w ->
  App.renderLoop storage k w = (Ok tt, w).
Proof.
  intros Hf Hr. destruct (reachable_settled storage fuel w Hf Hr) as (He & Hm & Hd).
  destruct k as [|k]; [reflexivity|].
  rewrite renderLoop_later by exact He. rewrite commit_later by exact He.
  rewrite decide_True by exact Hd. reflexivity.
Qed.


(** ** The conversation list *)

Lemma totalUnread_sum (l : list Conversation.t) :
  MessagesView.totalUnread l = foldr Z.add 0 (Conversation.unreadCount <$> l).
Proof.
  unfold MessagesView.totalUnread.
  assert (H : forall a, foldl (fun sum conv => sum + Conversation.unreadCount conv) a l
                        = a + foldr Z.add 0 (Conversation.unreadCount <$> l)).
  { induction l as [|c l IH]; intros a; [simpl; lia|].
    rewrite fmap_cons. simpl. rewrite IH. lia. }
  rewrite H. lia.
Qed.

(** The list after an event, whether the handler returned or threw. *)
Lemma handle_conversations (storage : Storage.API) (ev : MessagesPage.Event)
    (w : World MessagesPage.State) :
  let l := MessagesPage.conversations (ui w) in
  let l' := MessagesPage.conversations (ui (execM (MessagesPage.handle storage ev) w)) in
  match ev with
  | MessagesPage.Delete conversationId =>
      l' = filter (fun c => Conversation.id c <> conversationId) l
  | MessagesPage.Send =>
      l' = l
      \/ exists selected m,
           MessagesPage.selectedConversation (ui w) = Some selected
           /\ Message.conversationId m = Conversation.id selected
           /\ Forall2 (MessagesPage.sent (clock (sys w)) (Conversation.id selected) m
                         (MessagesPage.messageInput (ui w))) l l'
  | _ => l' = l
  end.
Proof.
  cbv zeta. destruct ev as [|conversationId|i|x].
  - simpl MessagesPage.handle. unfold execM.
    destruct (MessagesPage.selectedConversation (ui w)) as [selected|] eqn:Hsel.
    2:{ left. rewrite send_message_idle by (right; exact Hsel). reflexivity. }
    destruct (Js.trim (MessagesPage.messageInput (ui w))) eqn:Hin.
    { left. rewrite send_message_idle by (left; exact Hin). reflexivity. }
    assert (Hne : Js.trim (MessagesPage.messageInput (ui w)) <> "") by (rewrite Hin; done).
    destruct (send_run storage w selected Hne Hsel) as (updated & y1 & Hall & _ & Hrun).
    right. eexists selected, _. split; [reflexivity|]. split; [|].
    2:{ rewrite Hrun. rewrite bind_liftSys. simpl.
        destruct (Storage.set storage "conversations" _ None y1) as [[[]|e] y2]; simpl;
          exact Hall. }
    reflexivity.
  - simpl MessagesPage.handle. destruct w as [y [convs sel input] cs].
    unfold execM, MessagesPage.handleDeleteConversation. rewrite bind_getUi. simpl.
    unfold MessagesPage.setConversations. rewrite bind_setUi. simpl.
    rewrite bind_liftSys. simpl.
    destruct (Storage.set storage "conversations" _ None y) as [[[]|e] y2]; simpl;
      [|reflexivity].
    destruct sel as [selected|]; [|reflexivity].
    destruct (String.eqb _ _); reflexivity.
  - destruct w as [y [convs sel input] cs]. simpl.
    unfold execM. rewrite bind_getUi. simpl.
    destruct (convs !! i); reflexivity.
  - destruct w as [y [convs sel input] cs]. reflexivity.
Qed.

Lemma sent_fields (ck : nat -> Z) (selectedId : string) (m : Message.t) (x : string)
    (l l' : list Conversation.t) :
  Forall2 (MessagesPage.sent ck selectedId m x) l l' ->
  Conversation.id <$> l' = Conversation.id <$> l
  /\ Conversation.userId <$> l' = Conversation.userId <$> l
  /\ Conversation.unreadCount <$> l' = Conversation.unreadCount <$> l.
Proof.
  induction 1 as [|c c' l l' Hs Hall (IH1 & IH2 & IH3)]; [done|].
  rewrite !fmap_cons, IH1, IH2, IH3.
  unfold MessagesPage.sent in Hs. case_decide.
  - destruct Hs as (k & ->). done.
  - by subst.
Qed.


(** The default list, entry by entry. *)
Lemma defaults_shape (l : list MessagesPage.MockUser) (i : Z) (y : Sys) :
  exists defaults y',
    mapMi MessagesPage.defaultConversation i l y = (Ok defaults, y')
    /\ Conversation.id <$> defaults = (fun u => "conv_" +:+ MessagesPage.id u) <$> l
    /\ Conversation.userId <$> defaults = MessagesPage.id <$> l
    /\ Conversation.unreadCount <$> defaults
       = (fun j => if Z.eqb (j mod 2) 0 then j else 0) <$> seqZ i (Z.of_nat (length l))
    /\ Forall (fun c => length (Conversation.messages c) = 3%nat) defaults.
Proof.
  revert i y. induction l as [|user l IH]; intros i y.
  - exists [], y. repeat split; constructor.
  - destruct (IH (i + 1) (execM (MessagesPage.defaultConversation user i) y))
      as (defaults & y' & Hrun & Hid & Hu & Hn & Hm).
    eexists (_ :: defaults), y'. split.
    { change (mapMi MessagesPage.defaultConversation i (user :: l))
        with (let* c0 := MessagesPage.defaultConversation user i in
              let* ys := mapMi MessagesPage.defaultConversation (i + 1) l in
              ret (c0 :: ys)).
      unfold bind at 1.
      change (MessagesPage.defaultConversation user i y)
        with (fst (MessagesPage.defaultConversation user i y),
              execM (MessagesPage.defaultConversation user i) y).
      simpl fst. cbv beta iota. unfold bind at 1. rewrite Hrun. reflexivity. }
    rewrite !fmap_cons, Hid, Hu, Hn.
    rewrite (seqZ_cons i) by (simpl length; lia).
    replace (Z.pred (Z.of_nat (length (user :: l)))) with (Z.of_nat (length l))
      by (simpl length; lia).
    replace (Z.succ i) with (i + 1) by lia.
    repeat split. constructor; [reflexivity | exact Hm].
Qed.

Lemma sum_sublist (l1 l2 : list Z) :
  sublist l1 l2 -> Forall (fun z => 0 <= z) l2 ->
  0 <= foldr Z.add 0 l1 <= foldr Z.add 0 l2.
Proof.
  induction 1 as [|x l1 l2 Hs IH|x l1 l2 Hs IH]; intros Hpos; simpl.
  - lia.
  - inversion Hpos; subst. specialize (IH ltac:(assumption)). lia.
  - inversion Hpos; subst. specialize (IH ltac:(assumption)). lia.
Qed.

(** An induction principle for the lists of the reachable states: a property
    of the empty list and of every default list, kept by deleting and by
    sending, holds of the list of every reachable state. *)
Lemma reachable_list_ind (storage : Storage.API) (MOCK_USERS : list MessagesPage.MockUser)
    (P : list Conversation.t -> Prop) :
  P [] ->
  (forall y defaults y',
     MessagesPage.defaultConversations MOCK_USERS y = (Ok defaults, y') -> P defaults) ->
  (forall l conversationId,
     P l -> P (filter (fun c => Conversation.id c <> conversationId) l)) ->
  (forall ck selectedId m x l l',
     Message.conversationId m = selectedId ->
     Forall2 (MessagesPage.sent ck selectedId m x) l l' -> P l -> P l') ->
  forall w, MessagesPage.reachable storage MOCK_USERS w ->
            P (MessagesPage.conversations (ui w)).
Proof.
  intros Hnil Hdef Hdel Hsent w Hr. induction Hr as [y Hnone|w ev Hr IH].
  - unfold execM, MessagesPage.loadConversations. rewrite bind_liftSys. simpl.
    unfold MessagesPage.holdsNoConversations, resultM in Hnone.
    destruct (Storage.get storage "conversations" y) as [[saved|e] y0] eqn:Hget;
      simpl in *; [|exact Hnil].
    assert (Hd :
      P (MessagesPage.conversations
           (ui (snd ((let* defaults := liftSys (MessagesPage.defaultConversations MOCK_USERS) in
                    liftSys (Storage.set storage "conversations" (VConversations defaults) None);;
                    MessagesPage.setConversations defaults;;
                    MessagesPage.setSelectedConversation (head defaults))
                   (mkWorld y0 MessagesPage.initial [])))))).
    { rewrite bind_liftSys. simpl.
      destruct (defaults_consistent
                  (take 5 (filter (fun u => MessagesPage.id u <> "support") MOCK_USERS)) 0 y0)
        as (defaults & y' & Hrun & _).
      fold (MessagesPage.defaultConversations MOCK_USERS) in Hrun.
      rewrite Hrun. rewrite bind_liftSys. simpl.
      destruct (Storage.set storage "conversations" _ None y') as [[[]|e] y'']; simpl.
      - exact (Hdef _ _ _ Hrun).
      - exact Hnil. }
    destruct saved as [[s|p|[|c l]]|]; try exact Hd.
    exfalso. by eapply Hnone.
  - pose proof (handle_conversations storage ev w) as H. cbv zeta in H.
    destruct ev as [|conversationId|i|x].
    + destruct H as [-> | (sel & m & _ & Hm & Hall)]; [exact IH|].
      exact (Hsent _ _ _ _ _ _ Hm Hall IH).
    + rewrite H. by apply Hdel.
    + by rewrite H.
    + by rewrite H.
Qed.

Lemma Forall_fmap_eq {A A' B : Type} (f : A -> B) (f' : A' -> B) (Q : B -> Prop)
    (l : list A) (l' : list A') :
  f <$> l = f' <$> l' -> Forall (fun x => Q (f' x)) l' -> Forall (fun x => Q (f x)) l.
Proof.
  intros He Hl'. apply Forall_forall. intros x Hx.
  assert (Hfx : f x ∈ f' <$> l') by (rewrite <- He; apply list_elem_of_fmap; eauto).
  apply list_elem_of_fmap in Hfx as (x' & -> & Hx').
  revert x' Hx'. by apply Forall_forall.
Qed.

(** X11. In every state that the page reaches, the list has at most five
    conversations, none of them with the support user, and the total of the
    unread badge is between 0 and 6. *)
Theorem conversation_list_bounds (storage : Storage.API)
    (MOCK_USERS : list MessagesPage.MockUser) (w : World MessagesPage.State) :
  MessagesPage.reachable storage MOCK_USERS w ->
  let l := MessagesPage.conversations (ui w) in
  (length l <= 5)%nat
  /\ Forall (fun c => Conversation.userId c <> "support") l
  /\ 0 <= MessagesView.totalUnread l <= 6.
Proof.
  intros Hr. cbv zeta.
  assert (H : (length (MessagesPage.conversations (ui w)) <= 5)%nat
              /\ Forall (fun c => Conversation.userId c <> "support")
                   (MessagesPage.conversations (ui w))
              /\ sublist (Conversation.unreadCount <$> MessagesPage.conversations (ui w))
                   [0; 0; 2; 0; 4]).
  { revert w Hr.
    apply (reachable_list_ind storage MOCK_USERS
             (fun l => (length l <= 5)%nat
                       /\ Forall (fun c => Conversation.userId c <> "support") l
                       /\ sublist (Conversation.unreadCount <$> l) [0; 0; 2; 0; 4])).
    - split; [simpl; lia|]. split; [constructor|]. apply sublist_nil_l.
    - intros y defaults y' Hrun. unfold MessagesPage.defaultConversations in Hrun.
      set (l := take 5 (filter (fun u => MessagesPage.id u <> "support") MOCK_USERS)) in *.
      destruct (defaults_shape l 0 y) as (d & y'' & Hrun' & _ & Hu & Hn & _).
      rewrite Hrun in Hrun'. injection Hrun' as <- <-.
      assert (Hlen : (length l <= 5)%nat) by (unfold l; rewrite length_take; lia).
      split; [|split].
      + rewrite <- (length_fmap Conversation.userId), Hu, length_fmap. exact Hlen.
      + apply (Forall_fmap_eq _ _ (fun u => u <> "support") _ _ Hu).
        apply Forall_forall. intros u Hin.
        unfold l in Hin. apply subseteq_take in Hin.
        by apply list_elem_of_filter in Hin as [? _].
      + rewrite Hn.
        destruct l as [|? [|? [|? [|? [|? [|? ?]]]]]]; simpl in Hlen; try lia;
          vm_compute seqZ; simpl.
        * apply sublist_nil_l.
        * by repeat (apply sublist_skip || apply sublist_nil_l).
        * by repeat (apply sublist_skip || apply sublist_nil_l).
        * by repeat (apply sublist_skip || apply sublist_nil_l).
        * by repeat (apply sublist_skip || apply sublist_nil_l).
        * by repeat (apply sublist_skip || apply sublist_nil_l).
    - intros l cid (Hlen & Hs & Hn). split; [|split].
      + pose proof (length_filter (fun c => Conversation.id c <> cid) l). lia.
      + apply Forall_forall. intros c [_ Hin]%list_elem_of_filter.
        revert c Hin. by apply Forall_forall.
      + etrans; [|exact Hn]. apply fmap_sublist, sublist_filter.
    - intros ck sid m x l l' _ Hall (Hlen & Hs & Hn).
      pose proof (sent_fields _ _ _ _ _ _ Hall) as (_ & Hu & Hc).
      split; [|split].
      + by rewrite <- (Forall2_length _ _ _ Hall).
      + exact (Forall_fmap_eq _ _ (fun u => u <> "support") _ _ Hu Hs).
      + by rewrite Hc. }
  destruct H as (Hlen & Hs & Hn). split; [exact Hlen|]. split; [exact Hs|].
  rewrite totalUnread_sum.
  pose proof (sum_sublist _ _ Hn) as Hsum. simpl in Hsum. apply Hsum.
  repeat constructor; lia.
Qed.

(** X12. When the users of [MOCK_USERS] have distinct identifiers, the
    conversations of every reachable state have distinct identifiers. *)
Theorem conversation_ids_distinct (storage : Storage.API)
    (MOCK_USERS : list MessagesPage.MockUser) (w : World MessagesPage.State) :
  NoDup (MessagesPage.id <$> MOCK_USERS) ->
  MessagesPage.reachable storage MOCK_USERS w ->
  NoDup (Conversation.id <$> MessagesPage.conversations (ui w)).
Proof.
  intros Hnd. revert w.
  apply (reachable_list_ind storage MOCK_USERS
           (fun l => NoDup (Conversation.id <$> l))).
  - constructor.
  - intros y defaults y' Hrun. unfold MessagesPage.defaultConversations in Hrun.
    set (l := take 5 (filter (fun u => MessagesPage.id u <> "support") MOCK_USERS)) in *.
    destruct (defaults_shape l 0 y) as (d & y'' & Hrun' & Hid & _).
    rewrite Hrun in Hrun'. injection Hrun' as <- <-.
    rewrite Hid.
    change ((fun u => "conv_" +:+ MessagesPage.id u) <$> l)
      with ((String.app "conv_" ∘ MessagesPage.id) <$> l).
    rewrite list_fmap_compose. apply (NoDup_fmap_2 _).
    apply (sublist_NoDup _ (MessagesPage.id <$> MOCK_USERS)); [exact Hnd|].
    apply fmap_sublist.
    unfold l. etrans; [apply sublist_take | apply sublist_filter].
  - intros l cid Hl. apply (sublist_NoDup _ (Conversation.id <$> l)); [exact Hl|].
    apply fmap_sublist, sublist_filter.
  - intros ck sid m x l l' _ Hall Hl.
    by pose proof (sent_fields _ _ _ _ _ _ Hall) as (-> & _).
Qed.

(** X13. When the identifiers of the list are distinct and the selection is
    the entry at position [i], sending a non-blank input changes that entry
    and no other: the new list is the old one with position [i] replaced by
    the entry with the message appended. *)
Theorem send_changes_one_entry (storage : Storage.API) (w : World MessagesPage.State)
    (selected c : Conversation.t) (i : nat) :
  let st := ui w in
  let input := MessagesPage.messageInput st in
  let y := sys w in
  let newMessage :=
    Message.mk ("msg_" +:+ pretty (clock y (ticks y))) (Conversation.id selected)
      "me" input (clock y (S (ticks y))) true in
  Js.trim input <> "" ->
  MessagesPage.selectedConversation st = Some selected ->
  NoDup (Conversation.id <$> MessagesPage.conversations st) ->
  MessagesPage.conversations st !! i = Some c ->
  Conversation.id c = Conversation.id selected ->
  exists k,
    MessagesPage.conversations (ui (execM (MessagesPage.handleSendMessage storage) w))
    = <[i := Conversation.mk (Conversation.id c) (Conversation.userId c)
              (Conversation.userName c) (Conversation.userImage c)
              input (clock y k) (Conversation.unreadCount c)
              (Conversation.messages c ++ [newMessage])]>
        (MessagesPage.conversations st).
Proof.
  cbv zeta. intros Hin Hsel Hnd Hi Hid.
  destruct (send_run storage w selected Hin Hsel) as (updated & y1 & Hall & _ & Hrun).
  assert (Hup : MessagesPage.conversations
                  (ui (execM (MessagesPage.handleSendMessage storage) w)) = updated).
  { unfold execM. rewrite Hrun. rewrite bind_liftSys. simpl.
    destruct (Storage.set storage "conversations" _ None y1) as [[[]|e] y2]; reflexivity. }
  rewrite Hup.
  destruct (Forall2_lookup_l _ _ _ _ _ Hall Hi) as (c' & Hi' & Hs).
  unfold MessagesPage.sent in Hs. rewrite decide_True in Hs by exact Hid.
  destruct Hs as (k & ->). exists k.
  apply list_eq. intros j. destruct (decide (j = i)) as [->|Hne].
  - rewrite list_lookup_insert_eq by (by eapply lookup_lt_Some). exact Hi'.
  - rewrite list_lookup_insert_ne by done.
    destruct (MessagesPage.conversations (ui w) !! j) as [cj|] eqn:Hj.
    + destruct (Forall2_lookup_l _ _ _ _ _ Hall Hj) as (cj' & Hj' & Hsj).
      unfold MessagesPage.sent in Hsj. rewrite decide_False in Hsj; [by subst|].
      intros Heq. apply Hne.
      apply (NoDup_lookup _ j i (Conversation.id cj) Hnd).
      * by rewrite list_lookup_fmap, Hj.
      * rewrite list_lookup_fmap, Hi. simpl. congruence.
    + apply lookup_ge_None. rewrite <- (Forall2_length _ _ _ Hall).
      by apply lookup_ge_None.
Qed.

(** ** The conversation list and the storage manager *)

Lemma get_run (k : string) (y : Sys) :
  StorageManager.get k y
  = (Ok (match cache y !! k with
         | Some it => Some (data it)
         | None =>
             match localStorage y !! (StorageManager.PREFIX +:+ k) with
             | Some (Item it) => Some (data it)
             | _ => None
             end
         end), y).
Proof.
  unfold StorageManager.get.
  destruct (cache y !! k); [reflexivity|].
  destruct (localStorage y !! _) as [[?|?]|]; reflexivity.
Qed.

(** The mount effect when the storage manager gives back a non-empty list. *)
Lemma load_saved (MOCK_USERS : list MessagesPage.MockUser) (y : Sys)
    (c : Conversation.t) (l : list Conversation.t) (cs : list Call) :
  resultM (StorageManager.get "conversations") y = Ok (Some (VConversations (c :: l))) ->
  execM (MessagesPage.loadConversations StorageManager.getInstance MOCK_USERS)
    (mkWorld y MessagesPage.initial cs)
  = mkWorld y (MessagesPage.mkState (c :: l) (Some c) "") cs.
Proof.
  intros Hget. unfold resultM in Hget. rewrite get_run in Hget. simpl in Hget.
  unfold execM, MessagesPage.loadConversations. rewrite bind_liftSys. simpl sys.
  simpl Storage.get. rewrite get_run. injection Hget as ->. reflexivity.
Qed.

(** The mount effect when it does not: the default list is built, stored
    and shown, with its first conversation selected. *)
Lemma load_default (MOCK_USERS : list MessagesPage.MockUser) (y : Sys) (cs : list Call) :
  MessagesPage.holdsNoConversations StorageManager.getInstance y ->
  exists defaults y',
    MessagesPage.defaultConversations MOCK_USERS y = (Ok defaults, y')
    /\ execM (MessagesPage.loadConversations StorageManager.getInstance MOCK_USERS)
         (mkWorld y MessagesPage.initial cs)
       = mkWorld
           (execM (StorageManager.set "conversations" (VConversations defaults) None) y')
           (MessagesPage.mkState defaults (head defaults) "") cs.
Proof.
  intros Hnone. unfold MessagesPage.holdsNoConversations, resultM in Hnone.
  simpl Storage.get in Hnone. rewrite get_run in Hnone. simpl in Hnone.
  destruct (defaults_consistent
              (take 5 (filter (fun u => MessagesPage.id u <> "support") MOCK_USERS)) 0 y)
    as (defaults & y' & Hrun & _).
  fold (MessagesPage.defaultConversations MOCK_USERS) in Hrun.
  exists defaults, y'. split; [exact Hrun|].
  unfold execM, MessagesPage.loadConversations. rewrite bind_liftSys. simpl sys.
  simpl Storage.get. rewrite get_run.
  set (o := match cache y !! "conversations" with Some it => _ | None => _ end) in *.
  assert (Hd :
    snd ((let* defaults := liftSys (MessagesPage.defaultConversations MOCK_USERS) in
          liftSys (Storage.set StorageManager.getInstance "conversations"
                     (VConversations defaults) None);;
          MessagesPage.setConversations defaults;;
          MessagesPage.setSelectedConversation (head defaults))
           (mkWorld y MessagesPage.initial cs))
    = mkWorld
        (execM (StorageManager.set "conversations" (VConversations defaults) None) y')
        (MessagesPage.mkState defaults (head defaults) "") cs).
  { rewrite bind_liftSys. simpl sys. rewrite Hrun. reflexivity. }
  destruct o as [[s|p|[|c l]]|]; try exact Hd.
  exfalso. by eapply Hnone.
Qed.

Lemma shown_head (l : list Conversation.t) : MessagesView.shown l (head l).
Proof.
  destruct l as [|c l]; [reflexivity|]. simpl. exists c. split; [left|]. by repeat split.
Qed.

(** X14. With the storage manager, in every state that the page reaches the
    chat pane agrees with the list: the selection has the identifier, user,
    last message, unread count and messages of a conversation of the list,
    and there is no selection only when the list is empty. *)
Theorem selection_shown (MOCK_USERS : list MessagesPage.MockUser)
    (w : World MessagesPage.State) :
  MessagesPage.reachable StorageManager.getInstance MOCK_USERS w ->
  MessagesView.shown (MessagesPage.conversations (ui w))
    (MessagesPage.selectedConversation (ui w)).
Proof.
  intros Hr. induction Hr as [y Hnone|w ev Hr IH].
  - destruct (load_default MOCK_USERS y [] Hnone) as (defaults & y' & _ & ->).
    apply shown_head.
  - destruct ev as [|conversationId|i|x].
    + (* Send *)
      simpl MessagesPage.handle. unfold execM.
      destruct (MessagesPage.selectedConversation (ui w)) as [selected|] eqn:Hsel.
      2:{ rewrite send_message_idle by (right; exact Hsel). simpl.
          rewrite Hsel. exact IH. }
      destruct (Js.trim (MessagesPage.messageInput (ui w))) eqn:Hin.
      { rewrite send_message_idle by (left; exact Hin). simpl.
        rewrite Hsel. exact IH. }
      assert (Hne : Js.trim (MessagesPage.messageInput (ui w)) <> "") by (rewrite Hin; done).
      destruct (send_run StorageManager.getInstance w selected Hne Hsel)
        as (updated & y1 & Hall & _ & Hrun).
      rewrite Hrun. simpl.
      destruct IH as (c & Hc & Hid & Hu & Hn & Him & Hlm & Hun & Hms).
      apply list_elem_of_lookup in Hc as (i & Hi).
      destruct (Forall2_lookup_l _ _ _ _ _ Hall Hi) as (c' & Hi' & Hs).
      unfold MessagesPage.sent in Hs. rewrite decide_True in Hs by exact Hid.
      destruct Hs as (k & ->).
      eexists. split; [apply list_elem_of_lookup; eauto|]. simpl.
      repeat split; congruence.
    + (* Delete *)
      simpl MessagesPage.handle. destruct w as [y [convs sel input] cs]. simpl in IH.
      unfold execM, MessagesPage.handleDeleteConversation. rewrite bind_getUi. simpl.
      destruct sel as [selected|].
      * destruct IH as (c & Hc & Hid & Hrest).
        destruct (String.eqb_spec (Conversation.id selected) conversationId) as [He|Hne];
          simpl.
        -- apply shown_head.
        -- exists c. split; [|by split].
           apply list_elem_of_filter. split; [congruence | exact Hc].
      * change (convs = []) in IH. subst convs. reflexivity.
    + (* Select *)
      destruct w as [y [convs sel input] cs]. simpl in *.
      unfold execM. rewrite bind_getUi. simpl.
      destruct (convs !! i) as [c|] eqn:Hi; simpl; [|exact IH].
      exists c. split; [apply list_elem_of_lookup; eauto|]. by repeat split.
    + (* Input *)
      destruct w as [y [convs sel input] cs]. exact IH.
Qed.

(** What the page finds at its next mount, after a reload: the list stored
    under loveinthecity_conversations when it is not empty. *)
Lemma remount_saved (MOCK_USERS : list MessagesPage.MockUser) (y : Sys)
    (l : list Conversation.t) (t : option Z) :
  localStorage y !! "loveinthecity_conversations" = Some (Item (mkItem (VConversations l) t)) ->
  l <> [] ->
  MessagesView.remount StorageManager.getInstance MOCK_USERS y
  = mkWorld (App.reload y) (MessagesPage.mkState l (head l) "") [].
Proof.
  intros Hl Hne. destruct l as [|c l]; [done|].
  unfold MessagesView.remount. apply load_saved.
  rewrite get_result. simpl. rewrite lookup_empty.
  change (StorageManager.PREFIX +:+ "conversations") with "loveinthecity_conversations".
  by rewrite Hl.
Qed.

(** And the default list when nothing, or an empty list, is stored. *)
Lemma remount_default (MOCK_USERS : list MessagesPage.MockUser) (y : Sys) :
  localStorage y !! "loveinthecity_conversations" = None
  \/ (exists t, localStorage y !! "loveinthecity_conversations"
                = Some (Item (mkItem (VConversations []) t))) ->
  exists defaults y',
    MessagesPage.defaultConversations MOCK_USERS (App.reload y) = (Ok defaults, y')
    /\ MessagesPage.conversations
         (ui (MessagesView.remount StorageManager.getInstance MOCK_USERS y)) = defaults
    /\ MessagesPage.selectedConversation
         (ui (MessagesView.remount StorageManager.getInstance MOCK_USERS y)) = head defaults.
Proof.
  intros Hl.
  assert (Hnone : MessagesPage.holdsNoConversations StorageManager.getInstance (App.reload y)).
  { intros c l. simpl Storage.get. rewrite get_result. simpl. rewrite lookup_empty.
    change (StorageManager.PREFIX +:+ "conversations") with "loveinthecity_conversations".
    destruct Hl as [-> | (t & ->)]; discriminate. }
  destruct (load_default MOCK_USERS (App.reload y) [] Hnone) as (defaults & y' & Hrun & Hload).
  exists defaults, y'. split; [exact Hrun|].
  unfold MessagesView.remount. rewrite Hload. by split.
Qed.

(** X15. With the storage manager, a message sent is still there after a
    reload of the page: the list shown at the next mount is the list as the
    send left it. The selection, though, is back on the first
    conversation, and the input is empty. *)
Theorem sent_message_survives_reload (MOCK_USERS : list MessagesPage.MockUser)
    (w : World MessagesPage.State) (selected : Conversation.t) :
  Js.trim (MessagesPage.messageInput (ui w)) <> "" ->
  MessagesPage.selectedConversation (ui w) = Some selected ->
  MessagesPage.conversations (ui w) <> [] ->
  let w' := execM (MessagesPage.handleSendMessage StorageManager.getInstance) w in
  let r := MessagesView.remount StorageManager.getInstance MOCK_USERS (sys w') in
  MessagesPage.conversations (ui r) = MessagesPage.conversations (ui w')
  /\ MessagesPage.selectedConversation (ui r) = head (MessagesPage.conversations (ui w'))
  /\ MessagesPage.messageInput (ui r) = "".
Proof.
  intros Hin Hsel Hne. cbv zeta.
  destruct (send_run StorageManager.getInstance w selected Hin Hsel)
    as (updated & y1 & Hall & _ & Hrun).
  unfold execM. rewrite Hrun. simpl.
  rewrite (remount_saved MOCK_USERS _ updated None).
  - done.
  - simpl. apply lookup_insert_eq.
  - intros ->. apply Forall2_length in Hall. simpl in Hall.
    destruct (MessagesPage.conversations (ui w)); done.
Qed.

(** X16. With the storage manager, deleting the conversations that were left
    stores an empty list, and the next mount takes an empty list for no list:
    it builds the default conversations again, stores them and selects the
    first. *)
Theorem delete_all_restores_defaults (MOCK_USERS : list MessagesPage.MockUser)
    (w : World MessagesPage.State) (conversationId : string) :
  filter (fun c => Conversation.id c <> conversationId) (MessagesPage.conversations (ui w))
  = [] ->
  let w' := execM (MessagesPage.handleDeleteConversation StorageManager.getInstance
                     conversationId) w in
  let r := MessagesView.remount StorageManager.getInstance MOCK_USERS (sys w') in
  MessagesPage.conversations (ui w') = []
  /\ localStorage (sys w') !! "loveinthecity_conversations"
     = Some (Item (mkItem (VConversations []) None))
  /\ exists defaults y',
       MessagesPage.defaultConversations MOCK_USERS (App.reload (sys w')) = (Ok defaults, y')
       /\ MessagesPage.conversations (ui r) = defaults
       /\ MessagesPage.selectedConversation (ui r) = head defaults.
Proof.
  intros Hall. cbv zeta.
  set (w' := execM _ w).
  assert (Hw' : MessagesPage.conversations (ui w') = []
                /\ localStorage (sys w') !! "loveinthecity_conversations"
                   = Some (Item (mkItem (VConversations []) None))).
  { unfold w'. destruct w as [y [convs sel input] cs]. simpl in Hall.
    unfold execM, MessagesPage.handleDeleteConversation. rewrite bind_getUi. simpl.
    rewrite Hall.
    destruct sel as [selected|]; [destruct (String.eqb _ _)|]; simpl;
      (split; [reflexivity | apply lookup_insert_eq]). }
  destruct Hw' as (Hc & Hl). split; [exact Hc|]. split; [exact Hl|].
  apply remount_default. right. by exists None.
Qed.

(** X17. A logout erases the conversations with the rest: whatever was
    stored, the messages page mounted after [handleLogout] shows the default
    conversations. *)
Theorem logout_erases_conversations (MOCK_USERS : list MessagesPage.MockUser)
    (w : World App.State) :
  let y' := sys (execM (App.handleLogout StorageManager.getInstance) w) in
  let r := MessagesView.remount StorageManager.getInstance MOCK_USERS y' in
  localStorage y' !! "loveinthecity_conversations" = None
  /\ exists defaults y'',
       MessagesPage.defaultConversations MOCK_USERS (App.reload y') = (Ok defaults, y'')
       /\ MessagesPage.conversations (ui r) = defaults
       /\ MessagesPage.selectedConversation (ui r) = head defaults.
Proof.
  cbv zeta. destruct (logout_run w) as (y' & Hrun & (_ & Hfresh) & _).
  unfold execM. rewrite Hrun. simpl.
  assert (Hl : localStorage y' !! "loveinthecity_conversations" = None)
    by (apply Hfresh; reflexivity).
  split; [exact Hl|]. apply remount_default. by left.
Qed.

(** ** Search *)

Lemma prefix_spec (t s : string) :
  String.prefix t s = true <-> exists b, s = t +:+ b.
Proof.
  revert s. induction t as [|c t IH]; intros s.
  - split; [intros _; exists s; reflexivity|]. intros _. by destruct s.
  - destruct s as [|c' s]; [split; [done | intros (b & [=])]|].
    change (String.prefix (String c t) (String c' s))
      with (if ascii_dec c c' then String.prefix t s else false).
    destruct (ascii_dec c c') as [->|Hne].
    + rewrite IH. split; intros (b & Hb); exists b.
      * change (String c' t +:+ b) with (String c' (t +:+ b)). by rewrite Hb.
      * change (String c' t +:+ b) with (String c' (t +:+ b)) in Hb. by injection Hb.
    + split; [done|]. intros (b & Hb).
      change (String c t +:+ b) with (String c (t +:+ b)) in Hb. injection Hb as Hc _.
      by subst.
Qed.

Lemma includes_spec (s t : string) :
  MessagesView.includes s t = true <-> exists a b, s = a +:+ t +:+ b.
Proof.
  induction s as [|c s IH].
  - change (MessagesView.includes "" t) with (String.prefix t "" || false).
    rewrite orb_false_r, prefix_spec. split.
    + intros (b & Hb). by exists "", b.
    + intros (a & b & Hab). destruct a; [by exists b|discriminate].
  - change (MessagesView.includes (String c s) t)
      with (String.prefix t (String c s) || MessagesView.includes s t).
    rewrite orb_true_iff, IH, prefix_spec. split.
    + intros [(b & Hb) | (a & b & Hab)]; [by exists "", b|].
      exists (String c a), b.
      change (String c a +:+ t +:+ b) with (String c (a +:+ t +:+ b)). by rewrite Hab.
    + intros (a & b & Hab). destruct a as [|c' a]; [left; by exists b|].
      right. change (String c' a +:+ t +:+ b) with (String c' (a +:+ t +:+ b)) in Hab.
      injection Hab as _ Hab. by exists a, b.
Qed.

(** X18. The conversations listed under a search term are those of the list,
    in their order, whose lower-cased user name contains the lower-cased
    term somewhere; when the lower-cased term is empty, the whole list is
    listed. *)
Theorem search_filter (toLowerCase : string -> string) (searchTerm : string)
    (l : list Conversation.t) :
  let listed := MessagesView.filteredConversations toLowerCase searchTerm l in
  sublist listed l
  /\ (forall c, c ∈ listed <->
        c ∈ l /\ exists a b,
          toLowerCase (Conversation.userName c) = a +:+ toLowerCase searchTerm +:+ b)
  /\ (toLowerCase searchTerm = "" -> listed = l).
Proof.
  cbv zeta. unfold MessagesView.filteredConversations. split; [apply sublist_filter|].
  split.
  - intros c. rewrite list_elem_of_filter, includes_spec. tauto.
  - intros ->. induction l as [|c l IH]; [reflexivity|].
    rewrite filter_cons. rewrite decide_True.
    + by rewrite IH.
    + apply includes_spec. by exists "", (toLowerCase (Conversation.userName c)).
Qed.

(** ** Contact copy *)

(** X19. The check mark of the copy button never stays: in every state
    reached by copying, by timers running and by changes of selection,
    [copied] is true only while a callback that will clear it is pending;
    and every text handed to the clipboard is the contact text of some
    conversation. *)
Theorem copied_is_pending (w : MessagesView.Clip) :
  MessagesView.clipReachable w ->
  (MessagesView.copied w = true -> (0 < MessagesView.timers w)%nat)
  /\ Forall (fun x => exists c, x = MessagesView.contactInfo c) (MessagesView.clipboard w).
Proof.
  induction 1 as [c|w ev Hr (IHc & IHt)].
  - split; [discriminate | constructor].
  - destruct w as [sel cp cb tm]. simpl in *. destruct ev as [| |c'].
    + unfold execM. simpl MessagesView.clipHandle. unfold MessagesView.copyContactInfo.
      destruct sel as [c|]; simpl.
      * split; [lia|]. apply Forall_app. split; [exact IHt|].
        repeat constructor. by exists c.
      * by split.
    + unfold execM. simpl. destruct tm as [|n]; simpl.
      * by split.
      * split; [discriminate | exact IHt].
    + by split.
Qed.

(** X20. No selection, no copy: [copyContactInfo] then changes nothing. With
    a selection, two copies in a row leave two callbacks pending, and the
    first of them to run takes the check mark away although the second is
    still to come. *)
Theorem copy_twice_clears_early (w : MessagesView.Clip) :
  (MessagesView.selection w = None ->
   MessagesView.copyContactInfo w = (Ok tt, w))
  /\ (forall c, MessagesView.selection w = Some c ->
      let w2 := execM MessagesView.copyContactInfo (execM MessagesView.copyContactInfo w) in
      let w3 := execM MessagesView.timeout w2 in
      MessagesView.copied w2 = true
      /\ MessagesView.clipboard w2
         = (MessagesView.clipboard w
            ++ [MessagesView.contactInfo c; MessagesView.contactInfo c])%list
      /\ MessagesView.copied w3 = false
      /\ MessagesView.timers w3 = S (MessagesView.timers w)).
Proof.
  destruct w as [sel cp cb tm]. simpl. split.
  - intros ->. reflexivity.
  - intros c ->. unfold execM. simpl. rewrite <- app_assoc. done.
Qed.

(** ** Route guards *)

(** X21. The guards do not chase each other: every route of the table is
    resolved after at most one redirect, the page reached is the login page
    exactly when the user is not authenticated, and an unauthenticated user
    ends on /login whatever the path asked for. *)
Theorem guards_resolve (isAuthenticated : bool) (path : string) (e : Router.Element) :
  Router.route isAuthenticated path = Some e ->
  exists p page,
    Router.resolve 1 isAuthenticated path = Some (p, page)
    /\ (forall to replace, page <> Router.Navigate to replace)
    /\ (page = Router.LoginPage <-> isAuthenticated = false)
    /\ (isAuthenticated = false -> p = "/login")
    /\ (isAuthenticated = true -> path <> "/login" -> p = path).
Proof.
  unfold Router.resolve, Router.route.
  destruct (String.eqb_spec path "/login") as [->|H1];
    [|destruct (String.eqb_spec path "/mine") as [->|H2];
      [|destruct (String.eqb_spec path "/messages") as [->|H3];
        [|destruct (String.eqb_spec path "/") as [->|H4]; [|discriminate]]]];
    intros _; destruct isAuthenticated; simpl;
    eexists _, _; (split; [reflexivity|]); repeat split; try done.
Qed.

(** * Sample runs of the further properties *)

Ltac sample_reachable :=
  unfold Demo.messagesSent, Demo.messagesTyped, Demo.messagesLoaded;
  do 2 apply MessagesPage.reach_event; apply MessagesPage.reach_load;
  let H := fresh in intros ? ? H; vm_compute in H; discriminate H.

Ltac sample_nonblank := vm_compute; discriminate.


Lemma login_fresh_keys_witness :
  Session.fresh (sys Demo.loginForm)
  /\ exists w1,
       LoginPage.handleLogin StorageManager.getInstance Demo.onLogin Demo.loginForm
       = tryCatch (liftSys Demo.onLogin) LoginPage.handleLogin_catch w1
       /\ forall k, Js.startsWith k "loveinthecity_" = true ->
            (is_Some (localStorage (sys w1) !! k)
             <-> k = "loveinthecity_userSession" \/ k = "loveinthecity_userProfile").
Proof.
  assert (Hf : Session.fresh (sys Demo.loginForm)).
  { split; [reflexivity|]. intros k _. simpl. apply lookup_empty. }
  split; [exact Hf|].
  apply (login_fresh_keys Demo.onLogin Demo.loginForm);
    [sample_nonblank | sample_nonblank | exact Hf].
Defined.

Lemma logout_then_mount_witness :
  let y' := sys (execM (App.handleLogout StorageManager.getInstance) Demo.appLoggedIn) in
  Session.fresh y'
  /\ (forall a,
        a = App.mount StorageManager.getInstance 2 y' 0
        \/ a = App.mount StorageManager.getInstance 2 (App.reload y') 0 ->
        App.isAuthenticated (ui a) = false
        /\ App.mounted (ui a) = true
        /\ calls a = [App.toLogin]).
Proof.
  apply (logout_then_mount Demo.appLoggedIn 2 0). lia.
Defined.

Lemma logout_all_or_nothing_witness :
  fst (App.handleLogout Samples.brokenStorage Samples.appBroken)
  = Throw "storage unavailable"
  /\ App.isAuthenticated
       (ui (execM (App.dispatch Samples.brokenStorage 2 App.Logout) Samples.appBroken))
     = true.
Proof.
  assert (Ht : fst (App.handleLogout Samples.brokenStorage Samples.appBroken)
               = Throw "storage unavailable") by (vm_compute; reflexivity).
  split; [exact Ht|].
  destruct (logout_all_or_nothing Samples.brokenStorage Samples.appBroken) as (_ & _ & H).
  destruct (H _ Ht) as [_ H'].
  apply (H' 2%nat); [lia | apply App.reach_mount | vm_compute; reflexivity].
Defined.

Lemma settled_renders_nothing_witness :
  App.renderLoop Demo.storage 3 Demo.appLoggedIn = (Ok tt, Demo.appLoggedIn).
Proof.
  apply (settled_renders_nothing Demo.storage 2); [lia|].
  unfold Demo.appLoggedIn. apply App.reach_mount.
Defined.


Lemma conversation_list_bounds_witness :
  let l := MessagesPage.conversations (ui Demo.messagesSent) in
  (length l <= 5)%nat
  /\ Forall (fun c => Conversation.userId c <> "support") l
  /\ 0 <= MessagesView.totalUnread l <= 6.
Proof.
  apply (conversation_list_bounds Demo.storage Demo.MOCK_USERS Demo.messagesSent).
  sample_reachable.
Defined.

Lemma conversation_ids_distinct_witness :
  NoDup (MessagesPage.id <$> Demo.MOCK_USERS)
  /\ NoDup (Conversation.id <$> MessagesPage.conversations (ui Demo.messagesSent)).
Proof.
  assert (Hn : NoDup (MessagesPage.id <$> Demo.MOCK_USERS)).
  { refine (bool_decide_unpack _ _); vm_compute; exact I. }
  split; [exact Hn|].
  apply (conversation_ids_distinct Demo.storage Demo.MOCK_USERS Demo.messagesSent Hn).
  sample_reachable.
Defined.

Lemma send_changes_one_entry_witness :
  let c := Samples.firstDefault in
  let y := sys Demo.messagesTyped in
  exists k,
    MessagesPage.conversations
      (ui (execM (MessagesPage.handleSendMessage Demo.storage) Demo.messagesTyped))
    = <[0%nat := Conversation.mk (Conversation.id c) (Conversation.userId c)
              (Conversation.userName c) (Conversation.userImage c)
              (MessagesPage.messageInput (ui Demo.messagesTyped))
              (clock y k) (Conversation.unreadCount c)
              (Conversation.messages c
               ++ [Message.mk ("msg_" +:+ pretty (clock y (ticks y))) (Conversation.id c)
                     "me" (MessagesPage.messageInput (ui Demo.messagesTyped))
                     (clock y (S (ticks y))) true])]>
        (MessagesPage.conversations (ui Demo.messagesTyped)).
Proof.
  apply (send_changes_one_entry Demo.storage Demo.messagesTyped
           Samples.firstDefault Samples.firstDefault 0).
  - sample_nonblank.
  - vm_compute. reflexivity.
  - refine (bool_decide_unpack _ _); vm_compute; exact I.
  - vm_compute. reflexivity.
  - reflexivity.
Defined.

Lemma selection_shown_witness :
  MessagesView.shown (MessagesPage.conversations (ui Demo.messagesSent))
    (MessagesPage.selectedConversation (ui Demo.messagesSent)).
Proof.
  apply (selection_shown Demo.MOCK_USERS Demo.messagesSent).
  change StorageManager.getInstance with Demo.storage.
  sample_reachable.
Defined.

Lemma sent_message_survives_reload_witness :
  let r := MessagesView.remount StorageManager.getInstance Demo.MOCK_USERS
             (sys Demo.messagesSent) in
  MessagesPage.conversations (ui r) = MessagesPage.conversations (ui Demo.messagesSent)
  /\ MessagesPage.selectedConversation (ui r)
     = head (MessagesPage.conversations (ui Demo.messagesSent))
  /\ MessagesPage.messageInput (ui r) = "".
Proof.
  apply (sent_message_survives_reload Demo.MOCK_USERS Demo.messagesTyped
           Samples.firstDefault).
  - sample_nonblank.
  - vm_compute. reflexivity.
  - vm_compute. discriminate.
Defined.

Lemma delete_all_restores_defaults_witness :
  let w' := execM (MessagesPage.handleDeleteConversation StorageManager.getInstance
                     "conv_u1") Samples.oneLeft in
  let r := MessagesView.remount StorageManager.getInstance Demo.MOCK_USERS (sys w') in
  MessagesPage.conversations (ui Samples.oneLeft) <> []
  /\ MessagesPage.conversations (ui w') = []
  /\ length (MessagesPage.conversations (ui r)) = 2%nat.
Proof.
  split; [vm_compute; discriminate|].
  destruct (delete_all_restores_defaults Demo.MOCK_USERS Samples.oneLeft "conv_u1")
    as (H1 & _ & defaults & y' & Hd & Hr & _).
  - vm_compute. reflexivity.
  - split; [exact H1|]. vm_compute. reflexivity.
Defined.

Lemma search_filter_witness :
  let l := MessagesPage.conversations (ui Demo.messagesLoaded) in
  MessagesView.filteredConversations Samples.asciiLower "" l = l
  /\ sublist (MessagesView.filteredConversations Samples.asciiLower "BE" l) l.
Proof.
  split.
  - apply (search_filter Samples.asciiLower ""
             (MessagesPage.conversations (ui Demo.messagesLoaded))).
    reflexivity.
  - apply (search_filter Samples.asciiLower "BE"
             (MessagesPage.conversations (ui Demo.messagesLoaded))).
Defined.

Lemma copied_is_pending_witness :
  MessagesView.clipReachable Samples.clip
  /\ (MessagesView.copied Samples.clip = true -> (0 < MessagesView.timers Samples.clip)%nat)
  /\ Forall (fun x => exists c, x = MessagesView.contactInfo c)
            (MessagesView.clipboard Samples.clip).
Proof.
  assert (Hr : MessagesView.clipReachable Samples.clip).
  { unfold Samples.clip. do 3 apply MessagesView.clip_event. apply MessagesView.clip_start. }
  split; [exact Hr|].
  exact (copied_is_pending Samples.clip Hr).
Defined.

Lemma copy_twice_clears_early_witness :
  let w := MessagesView.mkClip (Some Samples.firstDefault) false [] 0 in
  let w2 := execM MessagesView.copyContactInfo (execM MessagesView.copyContactInfo w) in
  let w3 := execM MessagesView.timeout w2 in
  MessagesView.copied w2 = true
  /\ MessagesView.clipboard w2
     = (MessagesView.clipboard w
        ++ [MessagesView.contactInfo Samples.firstDefault;
            MessagesView.contactInfo Samples.firstDefault])%list
  /\ MessagesView.copied w3 = false
  /\ MessagesView.timers w3 = S (MessagesView.timers w).
Proof.
  apply (copy_twice_clears_early
           (MessagesView.mkClip (Some Samples.firstDefault) false [] 0)).
  reflexivity.
Defined.

Lemma guards_resolve_witness :
  Router.route false "/mine" = Some (Router.Navigate "/login" true)
  /\ exists p page,
       Router.resolve 1 false "/mine" = Some (p, page)
       /\ (forall to replace, page <> Router.Navigate to replace)
       /\ (page = Router.LoginPage <-> false = false)
       /\ (false = false -> p = "/login")
       /\ (false = true -> "/mine" <> "/login" -> p = "/mine").
Proof.
  split; [reflexivity|].
  apply (guards_resolve false "/mine" (Router.Navigate "/login" true)).
  reflexivity.
Defined.
